(** * Personal expense manager (main.py): record model, ledger and reports

    A shallow embedding of [src/main.py].  Amounts and budget limits are
    Python floats and are kept as binary64 values ([PrimFloat.float]);
    strings are byte strings; the ledger's methods run in a small state and
    exception monad over the manager object, the file system and the console. *)

From Stdlib Require Import ZArith Lia Floats.
From stdpp Require Import base option list gmap strings.

Local Open Scope Z_scope.
Local Open Scope string_scope.

(** ** Python values found in a flat JSON record (the JSON scalars) *)

Inductive pyval :=
  | VNone
  | VBool (b : bool)
  | VInt (z : Z)
  | VFloat (f : float)
  | VStr (s : string).

Abbreviation pydict := (gmap string pyval).

Inductive exn :=
  | KeyError (key : string)
  | TypeError
  | ValueError
  | OverflowError
  | AttributeError
  | IndexError
  | FileNotFoundError (path : string)
  | PermissionError (path : string)
  | JSONDecodeError.

(** Outcome of a call: a value, a raised exception, or [Untyped] when the
    call would store a non-string object in a text attribute (Python accepts
    that; the entities below are typed, so such runs are left out). *)
Inductive outcome (A : Type) :=
  | Ret (a : A)
  | Raise (e : exn)
  | Untyped.
Arguments Ret {A} a.
Arguments Raise {A} e.
Arguments Untyped {A}.

Definition obind {A B} (o : outcome A) (k : A -> outcome B) : outcome B :=
  match o with
  | Ret a => k a
  | Raise e => Raise e
  | Untyped => Untyped
  end.

(** [data[key]] *)
Definition getitem (data : pydict) (key : string) : outcome pyval :=
  match data !! key with
  | Some v => Ret v
  | None => Raise (KeyError key)
  end.

(** A value used where the program needs a [str]. *)
Definition as_str (v : pyval) : outcome string :=
  match v with
  | VStr s => Ret s
  | _ => Untyped
  end.

(** ** Floats *)

Definition fzero : float := 0%float.
Definition fone : float := 1%float.

(** [float(z)] for a Python int: round to nearest even, [OverflowError]
    when the integer is too large for a binary64. *)
Definition float_of_int (z : Z) : outcome float :=
  let f := SF2Prim (binary_normalize prec emax z 0 false) in
  if PrimFloat.is_infinity f then Raise OverflowError else Ret f.

(** Left-to-right float addition starting from 0: what a running total
    [acc = acc + x] computes, and what the built-in [sum] computes on floats
    in CPython up to 3.11.  The int 0 that Python starts from acts as the
    float 0.0 in every later use (addition, comparison, formatting). *)
Definition sum_left (xs : list float) : float :=
  fold_left PrimFloat.add xs fzero.

(** ** Text helpers *)

(** [s.startswith(p)] *)
Fixpoint startswith (s p : string) {struct p} : bool :=
  match p with
  | EmptyString => true
  | String c p' =>
      match s with
      | EmptyString => false
      | String d s' => if Ascii.eqb c d then startswith s' p' else false
      end
  end.

(** Truthiness, as in [x if x else y]. *)
Definition truthy (s : string) : bool :=
  match s with EmptyString => false | _ => true end.

Definition py_truthy (v : pyval) : bool :=
  match v with
  | VNone => false
  | VBool b => b
  | VInt z => negb (Z.eqb z 0)
  | VFloat f => negb (PrimFloat.eqb f fzero)
  | VStr s => truthy s
  end.

(** ASCII lower-casing: what [str.lower] does on ASCII text. *)
Definition ascii_lower_char (c : Ascii.ascii) : Ascii.ascii :=
  let n := Ascii.nat_of_ascii c in
  if (Nat.leb 65 n && Nat.leb n 90)%bool then Ascii.ascii_of_nat (n + 32) else c.

Fixpoint ascii_lower (s : string) : string :=
  match s with
  | EmptyString => EmptyString
  | String c s' => String (ascii_lower_char c) (ascii_lower s')
  end.

(** ASCII white space, and [str.strip] on ASCII text. *)
Definition ascii_space (c : Ascii.ascii) : bool :=
  let n := Ascii.nat_of_ascii c in
  (Nat.leb 9 n && Nat.leb n 13)%bool || (Nat.leb 28 n && Nat.leb n 32)%bool.

Fixpoint lstrip (s : string) : string :=
  match s with
  | String c s' => if ascii_space c then lstrip s' else s
  | EmptyString => EmptyString
  end.

Fixpoint rstrip (s : string) : string :=
  match s with
  | String c s' =>
      match rstrip s' with
      | EmptyString => if ascii_space c then EmptyString else String c EmptyString
      | rest => String c rest
      end
  | EmptyString => EmptyString
  end.

Definition ascii_strip (s : string) : string := rstrip (lstrip s).

(** [str.isdigit] and [int] on ASCII text. *)
Definition ascii_digit (c : Ascii.ascii) : bool :=
  let n := Ascii.nat_of_ascii c in (Nat.leb 48 n && Nat.leb n 57)%bool.

Fixpoint all_digits (s : string) : bool :=
  match s with
  | EmptyString => true
  | String c s' => ascii_digit c && all_digits s'
  end.

Definition ascii_isdigit (s : string) : bool := truthy s && all_digits s.

Fixpoint digits_value (acc : Z) (s : string) : Z :=
  match s with
  | EmptyString => acc
  | String c s' => digits_value (10 * acc + Z.of_nat (Ascii.nat_of_ascii c - 48)) s'
  end.

Definition ascii_int (s : string) : option Z :=
  if ascii_isdigit s then Some (digits_value 0 s) else None.

(** [float] on text, for runs that never convert text: every string is
    refused ([None], a [ValueError]). *)
Definition no_float_text (s : string) : option float := None.

(** ** Record model *)

Record Expense := mkExpense {
  _amount : float;
  _category : string;
  _description : string;
  _date : string
}.

(** An object of class [Expense] or of its subclass [RecurringExpense]. *)
Inductive ExpenseObj :=
  | Regular (base : Expense)
  | Recurring (base : Expense) (_frequency : string).

Record Category := mkCategory {
  _name : string;
  _budget_limit : float
}.

Definition base_of (o : ExpenseObj) : Expense :=
  match o with Regular b => b | Recurring b _ => b end.

Definition with_base (o : ExpenseObj) (b : Expense) : ExpenseObj :=
  match o with Regular _ => Regular b | Recurring _ fq => Recurring b fq end.

Definition get_amount (o : ExpenseObj) : float := _amount (base_of o).
Definition get_category (o : ExpenseObj) : string := _category (base_of o).
Definition get_description (o : ExpenseObj) : string := _description (base_of o).
Definition get_date (o : ExpenseObj) : string := _date (base_of o).

Definition get_frequency (o : ExpenseObj) : option string :=
  match o with Regular _ => None | Recurring _ fq => Some fq end.

Definition set_amount (o : ExpenseObj) (amount : float) : ExpenseObj :=
  let b := base_of o in
  with_base o (mkExpense amount (_category b) (_description b) (_date b)).

Definition set_category (o : ExpenseObj) (category : string) : ExpenseObj :=
  let b := base_of o in
  with_base o (mkExpense (_amount b) category (_description b) (_date b)).

Definition set_description (o : ExpenseObj) (description : string) : ExpenseObj :=
  let b := base_of o in
  with_base o (mkExpense (_amount b) (_category b) description (_date b)).

Definition set_date (o : ExpenseObj) (date : string) : ExpenseObj :=
  let b := base_of o in
  with_base o (mkExpense (_amount b) (_category b) (_description b) date).

Definition set_frequency (o : ExpenseObj) (frequency : string) : ExpenseObj :=
  match o with
  | Regular b => Regular b
  | Recurring b _ => Recurring b frequency
  end.

Definition get_name (c : Category) : string := _name c.
Definition get_budget_limit (c : Category) : float := _budget_limit c.

Definition set_budget_limit (c : Category) (limit : float) : Category :=
  mkCategory (_name c) limit.

(** The type discriminant an object writes into its dict. *)
Definition discriminant (o : ExpenseObj) : string :=
  match o with Regular _ => "regular" | Recurring _ _ => "recurring" end.

Section Model.

(** What [datetime.now().strftime("%Y-%m-%d")] and
    [datetime.now().strftime("%Y-%m")] return, and the built-ins
    [str.lower], [str.strip] and [float] on a [str] ([None] when the text
    is not a number). *)
Variable today : string.
Variable this_month : string.
Variable str_lower : string -> string.
Variable str_strip : string -> string.
Variable float_of_str : string -> option float.

(** The built-in [sum] on a sequence of floats.  Its rounding depends on the
    interpreter (plain left-to-right addition before CPython 3.12, compensated
    summation from 3.12 on), so only [sum([]) == 0] is assumed of it;
    [sum_left] is one instance. *)
Variable py_sum : list float -> float.
Hypothesis py_sum_nil : py_sum [] = fzero.

(** [float(v)] *)
Definition py_float (v : pyval) : outcome float :=
  match v with
  | VFloat f => Ret f
  | VInt z => float_of_int z
  | VBool b => Ret (if b then fone else fzero)
  | VStr s =>
      match float_of_str s with
      | Some f => Ret f
      | None => Raise ValueError
      end
  | VNone => Raise TypeError
  end.

(** [Expense.__init__].  The only statement that can raise is
    [float(amount)], so it is run first; the attribute stores follow. *)
Definition Expense_init (amount category description date : pyval) : outcome Expense :=
  obind (py_float amount) (fun a =>
  obind (as_str category) (fun c =>
  obind (as_str description) (fun d =>
  obind (as_str (if py_truthy date then date else VStr today)) (fun dt =>
  Ret (mkExpense a c d dt))))).

(** [RecurringExpense.__init__] *)
Definition RecurringExpense_init (amount category description date frequency : pyval)
    : outcome ExpenseObj :=
  obind (Expense_init amount category description date) (fun b =>
  obind (as_str frequency) (fun fq =>
  Ret (Recurring b fq))).

(** [Category.__init__] *)
Definition Category_init (name budget_limit : pyval) : outcome Category :=
  obind (py_float budget_limit) (fun l =>
  obind (as_str name) (fun n =>
  Ret (mkCategory n l))).

(** [Expense.to_dict] *)
Definition Expense_to_dict (b : Expense) : pydict :=
  <["type" := VStr "regular"]>
  (<["date" := VStr (_date b)]>
  (<["description" := VStr (_description b)]>
  (<["category" := VStr (_category b)]>
  (<["amount" := VFloat (_amount b)]> ∅)))).

(** [to_dict] with the subclass override. *)
Definition to_dict (o : ExpenseObj) : pydict :=
  match o with
  | Regular b => Expense_to_dict b
  | Recurring b fq =>
      <["type" := VStr "recurring"]>
      (<["frequency" := VStr fq]> (Expense_to_dict b))
  end.

(** [Expense.from_dict]: the four subscripts, left to right, then [cls(...)]. *)
Definition Expense_from_dict (data : pydict) : outcome ExpenseObj :=
  obind (getitem data "amount") (fun amount =>
  obind (getitem data "category") (fun category =>
  obind (getitem data "description") (fun description =>
  obind (getitem data "date") (fun date =>
  obind (Expense_init amount category description date) (fun b =>
  Ret (Regular b)))))).

(** [RecurringExpense.from_dict] *)
Definition RecurringExpense_from_dict (data : pydict) : outcome ExpenseObj :=
  obind (getitem data "amount") (fun amount =>
  obind (getitem data "category") (fun category =>
  obind (getitem data "description") (fun description =>
  obind (getitem data "date") (fun date =>
  let frequency := default (VStr "monthly") (data !! "frequency") in
  RecurringExpense_init amount category description date frequency)))).

(** The dispatch of [_load_expenses] on [item.get('type') == 'recurring']. *)
Definition expense_from_dict (item : pydict) : outcome ExpenseObj :=
  match item !! "type" with
  | Some (VStr tag) =>
      if String.eqb tag "recurring" then RecurringExpense_from_dict item
      else Expense_from_dict item
  | _ => Expense_from_dict item
  end.

(** [Category.to_dict] *)
Definition Category_to_dict (c : Category) : pydict :=
  <["budget_limit" := VFloat (_budget_limit c)]>
  (<["name" := VStr (_name c)]> ∅).

(** [Category.from_dict] *)
Definition Category_from_dict (data : pydict) : outcome Category :=
  obind (getitem data "name") (fun name =>
  obind (getitem data "budget_limit") (fun budget_limit =>
  Category_init name budget_limit)).


(** ** Insertion-ordered dicts from category name to running total *)

(** [d.get(key)] *)
Fixpoint dict_get (d : list (string * float)) (key : string) : option float :=
  match d with
  | [] => None
  | (k, v) :: d' => if String.eqb k key then Some v else dict_get d' key
  end.

(** [d[key] = v]: an existing key keeps its position, a new key goes last. *)
Fixpoint dict_set (d : list (string * float)) (key : string) (v : float)
    : list (string * float) :=
  match d with
  | [] => [(key, v)]
  | (k, x) :: d' =>
      if String.eqb k key then (k, v) :: d' else (k, x) :: dict_set d' key v
  end.

(** One turn of the loop [d[cat] = d.get(cat, 0) + exp.get_amount()]. *)
Definition accumulate (d : list (string * float)) (exp : ExpenseObj)
    : list (string * float) :=
  let cat := get_category exp in
  dict_set d cat (PrimFloat.add (default fzero (dict_get d cat)) (get_amount exp)).

Definition category_totals (exps : list ExpenseObj) : list (string * float) :=
  fold_left accumulate exps [].

(** ** Reports

    A report is the sequence of lines the method appends to [report]; a line
    keeps the values that the f-string formats. *)

Inductive line :=
  | LMonthlyTitle (month : string)
  | LRule
  | LTotalExpenses (total : float)
  | LBreakdownTitle
  | LBreakdown (cat : string) (amount : float)
  | LCategoryTitle
  | LCategoryName (cat_name : string)
  | LTotalSpent (total : float)
  | LBudgetLimit (budget_limit : float)
  | LRemaining (remaining : float)
  | LOverBudget (over : float).

Record MonthlyReport := mkMonthlyReport {
  mr_expenses : list ExpenseObj;
  mr_month : string
}.

(** [MonthlyReport.__init__]; [month] is [None] for Python's [None]. *)
Definition MonthlyReport_init (expenses : list ExpenseObj) (month : option string)
    : MonthlyReport :=
  mkMonthlyReport expenses
    (match month with
     | Some m => if truthy m then m else this_month
     | None => this_month
     end).

Definition monthly_expenses (r : MonthlyReport) : list ExpenseObj :=
  filter (fun e => startswith (get_date e) (mr_month r) = true) (mr_expenses r).

(** [MonthlyReport.generate_report] *)
Definition MonthlyReport_generate_report (r : MonthlyReport) : list line :=
  let monthly := monthly_expenses r in
  let total := py_sum (map get_amount monthly) in
  let categories := category_totals monthly in
  [LMonthlyTitle (mr_month r); LRule; LTotalExpenses total; LBreakdownTitle]
  ++ map (fun '(cat, amount) => LBreakdown cat amount) categories.

Record CategoryReport := mkCategoryReport {
  cr_expenses : list ExpenseObj;
  cr_categories : list Category
}.

(** The expenses one turn of the category loop selects. *)
Definition cat_expenses (expenses : list ExpenseObj) (cat_name : string)
    : list ExpenseObj :=
  filter (fun e => get_category e = cat_name) expenses.

(** The optional last line of a category's block. *)
Definition budget_line (budget_limit total : float) : list line :=
  if PrimFloat.ltb fzero budget_limit then
    let remaining := PrimFloat.sub budget_limit total in
    if PrimFloat.leb fzero remaining then [LRemaining remaining]
    else [LOverBudget (PrimFloat.abs remaining)]
  else [].

(** One turn of the loop over [self.categories]. *)
Definition category_block (expenses : list ExpenseObj) (category : Category)
    : list line :=
  let cat_name := get_name category in
  let total := py_sum (map get_amount (cat_expenses expenses cat_name)) in
  let budget_limit := get_budget_limit category in
  [LCategoryName cat_name; LTotalSpent total; LBudgetLimit budget_limit]
  ++ budget_line budget_limit total.

(** [CategoryReport.generate_report] *)
Definition CategoryReport_generate_report (r : CategoryReport) : list line :=
  [LCategoryTitle; LRule]
  ++ concat (map (category_block (cr_expenses r)) (cr_categories r)).


(** ** The stores, the console and the manager object *)

(** One element the loaders visit: an object, or anything else (a scalar
    or a nested array), on which [.get] and [['name']] fail. *)
Inductive json_item :=
  | IDict (d : pydict)
  | IOther.

(** What [json.load] returns. *)
Inductive json_doc :=
  | DArray (items : list json_item)
  | DObject (keys : list string)
  | DScalar (v : pyval).

(** What a file holds: text [json.load] rejects, or a JSON document. *)
Inductive file_content :=
  | Unparseable
  | Parsed (doc : json_doc).

(** The lines the manager prints. *)
Inductive msg :=
  | CreatedExpensesFile (path : string)
  | CreatedCategoriesFile (path : string)
  | LoadedExpenses (n : nat) (path : string)
  | ErrorLoadingExpenses (e : exn)
  | LoadedCategories (n : nat) (path : string)
  | ErrorLoadingCategories (e : exn)
  | SavedExpenses (n : nat) (path : string)
  | ErrorSavingExpenses (e : exn)
  | SavedCategories (n : nat) (path : string)
  | ErrorSavingCategories (e : exn)
  | ExpenseAdded
  | ExpenseDeleted (deleted : ExpenseObj)
  | InvalidExpenseIndex
  | ExpenseUpdated
  | CategoryExists (name : string)
  | CategoryAdded (name : string)
  | BudgetUpdated
  | InvalidCategoryIndex.

(** The [ExpenseManager] object together with the world it acts on:
    [fs] maps each existing path to its content, [readonly] holds the paths
    that cannot be opened for writing, [stdout] is what has been printed. *)
Record state := mkState {
  data_file : string;
  categories_file : string;
  expenses : list ExpenseObj;
  categories : list Category;
  fs : gmap string file_content;
  readonly : gset string;
  stdout : list msg
}.

Definition M (A : Type) : Type := state -> outcome A * state.

Definition ret {A} (a : A) : M A := fun s => (Ret a, s).

Definition bind {A B} (m : M A) (k : A -> M B) : M B :=
  fun s =>
    match m s with
    | (Ret a, s') => k a s'
    | (Raise e, s') => (Raise e, s')
    | (Untyped, s') => (Untyped, s')
    end.

Definition raise {A} (e : exn) : M A := fun s => (Raise e, s).

(** Runs a constructor or [from_dict] call inside a method. *)
Definition lift {A} (o : outcome A) : M A := fun s => (o, s).

(** [try: body  except Exception as e: handler e] *)
Definition try_except {A} (body : M A) (handler : exn -> M A) : M A :=
  fun s =>
    match body s with
    | (Raise e, s') => handler e s'
    | r => r
    end.

Notation "'let!' x ':=' m 'in' k" := (bind m (fun x => k))
  (at level 10, x name, k at level 200).
Notation "m ';;;' k" := (bind m (fun _ => k))
  (at level 100, k at level 200, right associativity).

Definition get_state : M state := fun s => (Ret s, s).

(** Field updates of the manager and its world. *)
Definition with_expenses (s : state) (l : list ExpenseObj) : state :=
  mkState (data_file s) (categories_file s) l (categories s)
    (fs s) (readonly s) (stdout s).

Definition with_categories (s : state) (l : list Category) : state :=
  mkState (data_file s) (categories_file s) (expenses s) l
    (fs s) (readonly s) (stdout s).

Definition with_file (s : state) (path : string) (content : file_content) : state :=
  mkState (data_file s) (categories_file s) (expenses s) (categories s)
    (<[path := content]> (fs s)) (readonly s) (stdout s).

Definition printed (s : state) (m : msg) : state :=
  mkState (data_file s) (categories_file s) (expenses s) (categories s)
    (fs s) (readonly s) (stdout s ++ [m]).

Definition set_expenses (l : list ExpenseObj) : M unit := fun s =>
  (Ret tt, with_expenses s l).

Definition set_categories (l : list Category) : M unit := fun s =>
  (Ret tt, with_categories s l).

Definition print (m : msg) : M unit := fun s => (Ret tt, printed s m).

(** [os.path.exists(path)] *)
Definition path_exists (path : string) : M bool := fun s =>
  (Ret (bool_decide (is_Some (fs s !! path))), s).

(** [with open(path, 'w') as file: json.dump(doc, file, indent=2)] *)
Definition write_json (path : string) (doc : json_doc) : M unit := fun s =>
  if bool_decide (path ∈ readonly s) then (Raise (PermissionError path), s)
  else (Ret tt, with_file s path (Parsed doc)).

(** [with open(path, 'r') as file: data = json.load(file)] *)
Definition read_json (path : string) : M json_doc := fun s =>
  match fs s !! path with
  | None => (Raise (FileNotFoundError path), s)
  | Some Unparseable => (Raise JSONDecodeError, s)
  | Some (Parsed doc) => (Ret doc, s)
  end.

(** The items [for item in data] visits: the elements of an array, the keys
    of an object, the characters of a string; other scalars do not iterate. *)
Definition iterate (doc : json_doc) : outcome (list json_item) :=
  match doc with
  | DArray items => Ret items
  | DObject keys => Ret (map (fun _ => IOther) keys)
  | DScalar (VStr s) => Ret (map (fun _ => IOther) (String.list_ascii_of_string s))
  | DScalar _ => Raise TypeError
  end.

(** The seed of [_initialize_files]. *)
Definition default_categories : list json_item :=
  map (fun '(name, limit) =>
         IDict (<["budget_limit" := VInt limit]> (<["name" := VStr name]> ∅)))
    [("Food", 5000); ("Travel", 3000); ("Entertainment", 2000);
     ("Shopping", 4000); ("Bills", 6000); ("Healthcare", 1500);
     ("Education", 3000); ("Other", 1000)].

(** [ExpenseManager._initialize_files] *)
Definition _initialize_files : M unit :=
  let! s := get_state in
  let! ex := path_exists (data_file s) in
  (if negb ex then
     write_json (data_file s) (DArray []) ;;;
     print (CreatedExpensesFile (data_file s))
   else ret tt) ;;;
  let! ex' := path_exists (categories_file s) in
  (if negb ex' then
     write_json (categories_file s) (DArray default_categories) ;;;
     print (CreatedCategoriesFile (categories_file s))
   else ret tt).

(** One turn of the loop of [_load_expenses]. *)
Definition load_expense_item (item : json_item) : M unit :=
  match item with
  | IOther => raise AttributeError
  | IDict d =>
      let! e := lift (expense_from_dict d) in
      let! s := get_state in
      set_expenses (expenses s ++ [e])
  end.

Fixpoint for_each {A} (body : A -> M unit) (items : list A) : M unit :=
  match items with
  | [] => ret tt
  | item :: rest => body item ;;; for_each body rest
  end.

(** [ExpenseManager._load_expenses] *)
Definition _load_expenses : M unit :=
  let! s := get_state in
  try_except
    (let! data := read_json (data_file s) in
     set_expenses [] ;;;
     let! items := lift (iterate data) in
     for_each load_expense_item items ;;;
     let! s' := get_state in
     print (LoadedExpenses (length (expenses s')) (data_file s)))
    (fun e =>
       print (ErrorLoadingExpenses e) ;;;
       set_expenses [] ;;;
       write_json (data_file s) (DArray [])).

(** The list comprehension of [_load_categories]. *)
Fixpoint load_category_items (items : list json_item) : outcome (list Category) :=
  match items with
  | [] => Ret []
  | IOther :: _ => Raise TypeError
  | IDict d :: rest =>
      obind (Category_from_dict d) (fun c =>
      obind (load_category_items rest) (fun cs => Ret (c :: cs)))
  end.

(** [ExpenseManager._load_categories] *)
Definition _load_categories : M unit :=
  let! s := get_state in
  try_except
    (let! data := read_json (categories_file s) in
     let! items := lift (iterate data) in
     let! cats := lift (load_category_items items) in
     set_categories cats ;;;
     print (LoadedCategories (length cats) (categories_file s)))
    (fun e =>
       print (ErrorLoadingCategories e) ;;;
       set_categories []).

(** [ExpenseManager._load_data] *)
Definition _load_data : M unit :=
  _load_expenses ;;; _load_categories.

(** [ExpenseManager.__init__], run in a world that holds [files]. *)
Definition ExpenseManager_init (data_file categories_file : string)
    (files : gmap string file_content) (ro : gset string) : outcome unit * state :=
  let body : M unit := _initialize_files ;;; _load_data in
  body (mkState data_file categories_file [] [] files ro []).


(** ** Ledger operations *)

(** [ExpenseManager._save_expenses] *)
Definition _save_expenses : M unit :=
  let! s := get_state in
  try_except
    (write_json (data_file s) (DArray (map (fun exp => IDict (to_dict exp)) (expenses s))) ;;;
     print (SavedExpenses (length (expenses s)) (data_file s)))
    (fun e => print (ErrorSavingExpenses e)).

(** [ExpenseManager._save_categories] *)
Definition _save_categories : M unit :=
  let! s := get_state in
  try_except
    (write_json (categories_file s)
       (DArray (map (fun cat => IDict (Category_to_dict cat)) (categories s))) ;;;
     print (SavedCategories (length (categories s)) (categories_file s)))
    (fun e => print (ErrorSavingCategories e)).

(** [ExpenseManager.add_expense] *)
Definition add_expense (expense : ExpenseObj) : M unit :=
  let! s := get_state in
  set_expenses (expenses s ++ [expense]) ;;;
  _save_expenses ;;;
  print ExpenseAdded.

(** [self.expenses.pop(i)] for a non-negative [i] *)
Definition pop_expense (i : nat) : M ExpenseObj :=
  let! s := get_state in
  match expenses s !! i with
  | Some e => set_expenses (delete i (expenses s)) ;;; ret e
  | None => raise IndexError
  end.

(** [ExpenseManager.delete_expense].  The method has no [return] statement:
    the value of the call is Python's [None], written [None] here. *)
Definition delete_expense (index : Z) : M (option ExpenseObj) :=
  let! s := get_state in
  if (0 <=? index)%Z && (index <? Z.of_nat (length (expenses s)))%Z then
    let! deleted := pop_expense (Z.to_nat index) in
    _save_expenses ;;;
    print (ExpenseDeleted deleted) ;;;
    ret None
  else
    print InvalidExpenseIndex ;;;
    ret None.

(** The setters [update_expense] applies to [self.expenses[index]], in
    order; an argument left at [None] is skipped.  For the amount, which can
    be any value, Python's [None] is both the absent argument and the value
    [VNone]: the test [amount is not None] skips either. *)
Definition apply_updates (expense : ExpenseObj) (amount : option pyval)
    (category description date : option string) : outcome ExpenseObj :=
  obind (match amount with
         | None | Some VNone => Ret expense
         | Some a => obind (py_float a) (fun f => Ret (set_amount expense f))
         end) (fun e1 =>
  let e2 := match category with Some c => set_category e1 c | None => e1 end in
  let e3 := match description with Some d => set_description e2 d | None => e2 end in
  let e4 := match date with Some d => set_date e3 d | None => e3 end in
  Ret e4).

(** [ExpenseManager.update_expense]; the object is changed in place, so the
    list holds the updated object at the same index. *)
Definition update_expense (index : Z) (amount : option pyval)
    (category description date : option string) : M unit :=
  let! s := get_state in
  if (0 <=? index)%Z && (index <? Z.of_nat (length (expenses s)))%Z then
    match expenses s !! Z.to_nat index with
    | Some expense =>
        let! e' := lift (apply_updates expense amount category description date) in
        set_expenses (<[Z.to_nat index := e']> (expenses s)) ;;;
        _save_expenses ;;;
        print ExpenseUpdated
    | None => raise IndexError
    end
  else print InvalidExpenseIndex.

(** [ExpenseManager.get_all_expenses] *)
Definition get_all_expenses (s : state) : list ExpenseObj := expenses s.

(** [ExpenseManager.get_expenses_by_category] *)
Definition get_expenses_by_category (s : state) (category : string) : list ExpenseObj :=
  filter (fun exp => get_category exp = category) (expenses s).

(** [ExpenseManager.get_total_spending] *)
Definition get_total_spending (s : state) : float :=
  py_sum (map get_amount (expenses s)).

(** [ExpenseManager.get_category_summary] *)
Definition get_category_summary (s : state) : list (string * float) :=
  category_totals (expenses s).

(** The test of the loop of [add_category]. *)
Definition same_name (name : string) (cat : Category) : bool :=
  String.eqb (str_lower (get_name cat)) (str_lower name).

(** [ExpenseManager.add_category]; the loop returns at the first match. *)
Definition add_category (name : string) (budget_limit : pyval) : M unit :=
  let! s := get_state in
  if existsb (same_name name) (categories s) then
    print (CategoryExists name)
  else
    let! new_category := lift (Category_init (VStr name) budget_limit) in
    set_categories (categories s ++ [new_category]) ;;;
    _save_categories ;;;
    print (CategoryAdded name).

(** [ExpenseManager.update_category_budget] *)
Definition update_category_budget (index : Z) (new_budget : pyval) : M unit :=
  let! s := get_state in
  if (0 <=? index)%Z && (index <? Z.of_nat (length (categories s)))%Z then
    match categories s !! Z.to_nat index with
    | Some cat =>
        let! limit := lift (py_float new_budget) in
        set_categories (<[Z.to_nat index := set_budget_limit cat limit]> (categories s)) ;;;
        _save_categories ;;;
        print BudgetUpdated
    | None => raise IndexError
    end
  else print InvalidCategoryIndex.

(** [ExpenseManager.get_categories], [get_category_names] *)
Definition get_categories (s : state) : list Category := categories s.
Definition get_category_names (s : state) : list string := map get_name (categories s).

(** ** The frequency prompt of [ExpenseManagerUI.add_recurring_expense_ui] *)

Definition valid_frequencies : list string := ["daily"; "weekly"; "monthly"; "yearly"].

(** [frequency = input().strip().lower()] followed by the membership test. *)
Definition ui_frequency (typed : string) : string :=
  let frequency := str_lower (str_strip typed) in
  if bool_decide (frequency ∈ valid_frequencies) then frequency else "monthly".

(** The object the prompt builds from its parsed inputs. *)
Definition ui_recurring_expense (amount : float) (category description date_input typed : string)
    : outcome ExpenseObj :=
  let frequency := ui_frequency typed in
  let date := if truthy date_input then date_input else today in
  RecurringExpense_init (VFloat amount) (VStr category) (VStr description)
    (VStr date) (VStr frequency).


(** ** The category and edit prompts of [ExpenseManagerUI] *)

(** [str.isdigit], and [int] on a [str] ([None] when it raises
    [ValueError]). *)
Variable str_isdigit : string -> bool.
Variable int_of_str : string -> option Z.

(** The two notices the category prompt can print. *)
Inductive ui_notice :=
  | InvalidCategoryNumber
  | CategoryNotFound.

(** The category choice shared by [add_expense_ui] and
    [add_recurring_expense_ui]: the category name chosen and the notice
    printed, if any. *)
Definition ui_choose_category (categories : list Category) (typed : string)
    : outcome (string * option ui_notice) :=
  let cat_input := str_strip typed in
  if str_isdigit cat_input then
    match int_of_str cat_input with
    | None => Raise ValueError
    | Some n =>
        let cat_index := (n - 1)%Z in
        if (0 <=? cat_index)%Z && (cat_index <? Z.of_nat (length categories))%Z then
          match categories !! Z.to_nat cat_index with
          | Some c => Ret (get_name c, None)
          | None => Raise IndexError
          end
        else Ret ("Other", Some InvalidCategoryNumber)
    end
  else
    if bool_decide (cat_input ∈ map get_name categories) then Ret (cat_input, None)
    else Ret ("Other", Some CategoryNotFound).

(** The object [add_expense_ui] builds from the four typed answers. *)
Definition ui_new_expense (s : state) (amount_text cat_text description date_input : string)
    : outcome ExpenseObj :=
  match float_of_str amount_text with
  | None => Raise ValueError
  | Some amount =>
      obind (ui_choose_category (get_categories s) cat_text) (fun choice =>
      let date := if truthy date_input then date_input else today in
      obind (Expense_init (VFloat amount) (VStr (fst choice)) (VStr description) (VStr date))
        (fun b => Ret (Regular b)))
  end.

(** [x if x.strip() else None] *)
Definition ui_blank_to_none (text : string) : option string :=
  if truthy (str_strip text) then Some text else None.

(** [float(new_amount) if new_amount.strip() else None] *)
Definition ui_edit_amount (new_amount : string) : outcome (option pyval) :=
  if truthy (str_strip new_amount) then
    match float_of_str new_amount with
    | Some f => Ret (Some (VFloat f))
    | None => Raise ValueError
    end
  else Ret None.

(** The conversions of [edit_expense_ui] and its call of [update_expense],
    for an index the prompt accepted. *)
Definition ui_update_expense (index : Z)
    (new_amount new_category new_description new_date : string) : M unit :=
  let! amount := lift (ui_edit_amount new_amount) in
  update_expense index amount (ui_blank_to_none new_category)
    (ui_blank_to_none new_description) (ui_blank_to_none new_date).


(** ** Sample data used by the closed examples *)

Definition lunch : ExpenseObj :=
  Regular (mkExpense 250%float "Food" "lunch" "2024-05-10").
Definition rent : ExpenseObj :=
  Recurring (mkExpense 99%float "Bills" "rent" "2024-05-01") "monthly".
Definition taxi : ExpenseObj :=
  Regular (mkExpense 40%float "Travel" "taxi" "2024-06-02").
Definition gift : ExpenseObj :=
  Regular (mkExpense 75%float "Gifts" "birthday" "2024-05-20").

Definition food : Category := mkCategory "Food" 5000%float.
Definition bills : Category := mkCategory "Bills" 6000%float.
Definition travel : Category := mkCategory "Travel" 0%float.

Definition vault : Category := mkCategory "Vault" infinity.
Definition bullion : ExpenseObj :=
  Regular (mkExpense infinity "Vault" "gold" "2024-05-10").
Definition groceries : ExpenseObj :=
  Regular (mkExpense 4000%float "Food" "groceries" "2024-05-03").
Definition banquet : ExpenseObj :=
  Regular (mkExpense 6000%float "Food" "banquet" "2024-05-04").

Definition sample_ledger : state :=
  mkState "expenses.json" "categories.json"
    [lunch; rent; taxi; gift] [food; bills; travel] ∅ ∅ [].

(** The sample ledger next to an (empty) categories store; a manager whose
    expense store holds two saved expenses; one whose store has a record
    without keys between two saved ones; and one whose store is unparseable
    and cannot be written. *)
Definition stocked_ledger : state :=
  with_file sample_ledger "categories.json" (Parsed (DArray [])).

Definition saved_ledger : state :=
  mkState "expenses.json" "categories.json" [] []
    {["expenses.json" := Parsed (DArray [IDict (to_dict lunch); IDict (to_dict rent)])]}
    ∅ [].

Definition torn_ledger : state :=
  mkState "expenses.json" "categories.json" [] []
    {["expenses.json" :=
        Parsed (DArray [IDict (to_dict lunch); IDict ∅; IDict (to_dict rent)])]}
    ∅ [].

Definition locked_ledger : state :=
  mkState "expenses.json" "categories.json" [] []
    {["expenses.json" := Unparseable]} {["expenses.json"]} [].

(** ** Reference definitions, written from the specification's wording *)

(** The distinct elements of a list in order of first appearance. *)
Fixpoint first_occurrences (l : list string) : list string :=
  match l with
  | [] => []
  | x :: l' => x :: filter (fun y => y <> x) (first_occurrences l')
  end.

(** The expenses of one category, and their amounts added up in order. *)
Definition in_category (cat : string) (exps : list ExpenseObj) : list ExpenseObj :=
  filter (fun e => get_category e = cat) exps.

Definition subtotal (cat : string) (exps : list ExpenseObj) : float :=
  sum_left (map get_amount (in_category cat exps)).

(** What loading gives back for an object that [_save_expenses] wrote:
    the object itself, with an empty date replaced by the current date. *)
Definition reload (o : ExpenseObj) : ExpenseObj :=
  if truthy (get_date o) then o else set_date o today.






(** Invariants of the ledger: every expense has a non-empty date, and no
    two categories have the same lower-case name. *)
Definition dated (o : ExpenseObj) : Prop := get_date o <> "".

Definition distinct_names (cats : list Category) : Prop :=
  NoDup (map (fun c => str_lower (get_name c)) cats).

(** The first of [keys] that a record lacks. *)
Fixpoint first_missing (keys : list string) (d : pydict) : option string :=
  match keys with
  | [] => None
  | k :: keys' => if bool_decide (is_Some (d !! k)) then first_missing keys' d else Some k
  end.

(** What an operation on the expenses may change: the expense list, the
    console and the expense store; and likewise for the categories. *)
Definition only_expense_store_changed (s s' : state) : Prop :=
  categories s' = categories s
  /\ data_file s' = data_file s
  /\ categories_file s' = categories_file s
  /\ readonly s' = readonly s
  /\ forall path, path <> data_file s -> fs s' !! path = fs s !! path.

Definition only_categories_store_changed (s s' : state) : Prop :=
  expenses s' = expenses s
  /\ data_file s' = data_file s
  /\ categories_file s' = categories_file s
  /\ readonly s' = readonly s
  /\ forall path, path <> categories_file s -> fs s' !! path = fs s !! path.

(** A finite or infinite binary64 value of the given sign. *)
Definition signed_nonzero (s : bool) (r : spec_float) : Prop :=
  match r with
  | S754_finite s' _ _ | S754_infinity s' => s' = s
  | _ => False
  end.

(** ** Proof helpers *)

Ltac run := unfold bind, ret, raise, lift, get_state, set_expenses, set_categories,
  print, try_except, write_json, read_json, path_exists; simpl.

(** ** Properties *)

(** C1 (as amended).  [RecurringExpense.__init__] keeps the frequency it is
    given, whatever it is; unknown values become "monthly" only in the
    prompt [add_recurring_expense_ui], which strips and lower-cases the typed
    text first.  An object built by the prompt therefore always carries one
    of the four frequencies. *)
Theorem frequency_normalised_by_prompt_only
    (amount : float) (category description frequency date_input typed : string)
    (date : option string) :
  (exists b,
     RecurringExpense_init (VFloat amount) (VStr category) (VStr description)
       (from_option VStr VNone date) (VStr frequency) = Ret (Recurring b frequency))
  /\ (exists b,
        ui_recurring_expense amount category description date_input typed
          = Ret (Recurring b (ui_frequency typed)))
  /\ ui_frequency typed ∈ valid_frequencies
  /\ (str_lower (str_strip typed) ∉ valid_frequencies -> ui_frequency typed = "monthly")
  /\ (str_lower (str_strip typed) ∈ valid_frequencies ->
      ui_frequency typed = str_lower (str_strip typed)).
Proof using Type.
  repeat split.
  - unfold RecurringExpense_init, Expense_init. simpl.
    destruct date as [d|]; simpl; [destruct (truthy d)|]; simpl; eauto.
  - unfold ui_recurring_expense, RecurringExpense_init, Expense_init. simpl.
    destruct (truthy date_input) eqn:E; simpl; [rewrite E|]; simpl; eauto.
    destruct (truthy today); simpl; eauto.
  - unfold ui_frequency. case_bool_decide; [assumption|].
    unfold valid_frequencies. right. right. left.
  - intros H. unfold ui_frequency. by rewrite bool_decide_eq_false_2.
  - intros H. unfold ui_frequency. by rewrite bool_decide_eq_true_2.
Qed.


(** What [expense_from_dict] rebuilds from [to_dict o]: [o] itself, except
    that an empty date is falsy and is replaced by the current date. *)
Lemma from_dict_to_dict (o : ExpenseObj) :
  expense_from_dict (to_dict o)
  = Ret (if truthy (get_date o) then o else set_date o today).
Proof using Type.
  destruct o as [[a c d dt]|[a c d dt] fq]; destruct dt; vm_compute; reflexivity.
Qed.

(** C4 (as amended).  For every expense object whose date is not the empty
    string, and for every category, [from_dict (to_dict x)] returns an object
    equal to [x]: same class (discriminant), amount, category, description,
    date, frequency, name and budget limit.  The dict carries the
    discriminant under "type". *)
Theorem to_dict_from_dict_roundtrip (o : ExpenseObj) (c : Category) :
  get_date o <> "" ->
  expense_from_dict (to_dict o) = Ret o
  /\ to_dict o !! "type" = Some (VStr (discriminant o))
  /\ Category_from_dict (Category_to_dict c) = Ret c.
Proof using Type.
  intros Hdate. split; [|split].
  - rewrite from_dict_to_dict.
    destruct (get_date o) eqn:E; [congruence | reflexivity].
  - destruct o; vm_compute; reflexivity.
  - destruct c; vm_compute; reflexivity.
Qed.

(** C8.  [get_total_spending()] is [sum] applied to the amounts of the
    expenses of the ledger, in ledger order, and it is 0 for an empty
    ledger. *)
Theorem get_total_spending_is_sum (s : state) :
  get_total_spending s = py_sum (map get_amount (get_all_expenses s))
  /\ (get_all_expenses s = [] -> get_total_spending s = fzero).
Proof using py_sum_nil.
  split; [reflexivity|].
  unfold get_total_spending, get_all_expenses. intros ->. apply py_sum_nil.
Qed.


(** [_save_expenses] never raises: it writes the serialized list when the
    store can be opened for writing and prints an error otherwise. *)
Lemma save_expenses_run (s : state) :
  _save_expenses s =
  (Ret tt,
   if bool_decide (data_file s ∈ readonly s) then
     printed s (ErrorSavingExpenses (PermissionError (data_file s)))
   else
     printed
       (with_file s (data_file s)
          (Parsed (DArray (map (fun exp => IDict (to_dict exp)) (expenses s)))))
       (SavedExpenses (length (expenses s)) (data_file s))).
Proof using Type.
  unfold _save_expenses. run. destruct (bool_decide (data_file s ∈ readonly s)); reflexivity.
Qed.

Lemma save_categories_run (s : state) :
  _save_categories s =
  (Ret tt,
   if bool_decide (categories_file s ∈ readonly s) then
     printed s (ErrorSavingCategories (PermissionError (categories_file s)))
   else
     printed
       (with_file s (categories_file s)
          (Parsed (DArray (map (fun cat => IDict (Category_to_dict cat)) (categories s)))))
       (SavedCategories (length (categories s)) (categories_file s))).
Proof using Type.
  unfold _save_categories. run.
  destruct (bool_decide (categories_file s ∈ readonly s)); reflexivity.
Qed.

Lemma last_two {A} (l : list A) (x y : A) : last (l ++ [x; y]) = Some y.
Proof using Type. by rewrite cons_middle, app_assoc, last_snoc. Qed.

Lemma filter_none {A} (P : A -> Prop) `{!forall x, Decision (P x)} (l : list A) :
  (forall x, x ∈ l -> ~ P x) -> filter P l = [].
Proof using Type.
  induction l as [|a l IH]; intros Hnone; [done|].
  rewrite filter_cons_False by (apply Hnone; left).
  apply IH. intros x Hx. apply Hnone. by right.
Qed.

Lemma index_in_range {A} (l : list A) (index : Z) :
  (0 <= index < Z.of_nat (length l))%Z ->
  ((0 <=? index)%Z && (index <? Z.of_nat (length l))%Z = true)
  /\ exists x, l !! Z.to_nat index = Some x.
Proof using Type.
  intros H. split.
  - apply andb_true_iff. split; [apply Z.leb_le | apply Z.ltb_lt]; lia.
  - apply lookup_lt_is_Some. lia.
Qed.

Lemma index_out_of_range {A} (l : list A) (index : Z) :
  (index < 0 \/ Z.of_nat (length l) <= index)%Z ->
  (0 <=? index)%Z && (index <? Z.of_nat (length l))%Z = false.
Proof using Type.
  intros H. apply andb_false_iff.
  destruct H; [left; apply Z.leb_gt | right; apply Z.ltb_ge]; lia.
Qed.

(** The whole run of [delete_expense] at a valid index. *)
Lemma delete_expense_run (s : state) (index : Z) (deleted : ExpenseObj) :
  (0 <= index < Z.of_nat (length (expenses s)))%Z ->
  expenses s !! Z.to_nat index = Some deleted ->
  delete_expense index s =
  (Ret None,
   printed (_save_expenses (with_expenses s (delete (Z.to_nat index) (expenses s)))).2
     (ExpenseDeleted deleted)).
Proof using Type.
  intros Hrange Hat.
  destruct (index_in_range (expenses s) index Hrange) as [Hguard _].
  unfold delete_expense, pop_expense, bind at 1 2 3, get_state.
  rewrite Hguard, Hat. unfold set_expenses, bind at 1, ret at 1.
  unfold bind at 1. rewrite save_expenses_run. reflexivity.
Qed.

(** C2 (as amended).  For a valid index, [delete_expense] removes exactly the
    expense at that position (the others keep their order), the ledger is
    one shorter, the new sequence is written to the expense store when the
    store is writable (otherwise the failure is printed and the removal
    stands in memory), the removed expense is printed in the success
    message, and the call itself evaluates to [None]. *)
Theorem delete_expense_valid_index (s : state) (index : Z) :
  (0 <= index < Z.of_nat (length (expenses s)))%Z ->
  exists deleted,
    expenses s !! Z.to_nat index = Some deleted
    /\ (delete_expense index s).1 = Ret None
    /\ expenses (delete_expense index s).2
       = (take (Z.to_nat index) (expenses s)
          ++ drop (S (Z.to_nat index)) (expenses s))%list
    /\ S (length (expenses (delete_expense index s).2)) = length (expenses s)
    /\ categories (delete_expense index s).2 = categories s
    /\ last (stdout (delete_expense index s).2) = Some (ExpenseDeleted deleted)
    /\ (data_file s ∉ readonly s ->
        fs (delete_expense index s).2
        = <[data_file s :=
              Parsed (DArray (map (fun exp => IDict (to_dict exp))
                                (expenses (delete_expense index s).2)))]> (fs s))
    /\ (data_file s ∈ readonly s ->
        fs (delete_expense index s).2 = fs s
        /\ ErrorSavingExpenses (PermissionError (data_file s))
           ∈ stdout (delete_expense index s).2).
Proof using Type.
  intros Hrange.
  destruct (index_in_range (expenses s) index Hrange) as [_ [deleted Hat]].
  exists deleted. split; [exact Hat|].
  rewrite (delete_expense_run s index deleted Hrange Hat), save_expenses_run.
  assert (Hlen : S (length (delete (Z.to_nat index) (expenses s))) = length (expenses s)).
  { rewrite length_delete by eauto. apply lookup_lt_Some in Hat. lia. }
  cbn [fst snd with_expenses data_file readonly].
  destruct (bool_decide (data_file s ∈ readonly s)) eqn:Hro;
    cbn [printed with_file expenses categories fs stdout data_file].
  - apply bool_decide_eq_true in Hro.
    repeat split; try done.
    + apply delete_take_drop.
    + apply last_snoc.
    + rewrite !elem_of_app. left. right. left.
  - apply bool_decide_eq_false in Hro.
    repeat split; try done.
    + apply delete_take_drop.
    + apply last_snoc.
Qed.

(** C3.  For an index below 0 or at least the length of the expense list,
    [delete_expense] prints the invalid-index message and changes nothing
    else: the expenses, the categories and every file stay as they were. *)
Theorem delete_expense_out_of_range (s : state) (index : Z) :
  (index < 0 \/ Z.of_nat (length (expenses s)) <= index)%Z ->
  delete_expense index s = (Ret None, printed s InvalidExpenseIndex).
Proof using Type.
  intros Hout. unfold delete_expense, bind at 1, get_state.
  rewrite (index_out_of_range _ _ Hout). reflexivity.
Qed.


(** The loop of [add_category] finds a match exactly when some stored name
    has the same lower-case form. *)
Lemma existsb_same_name (name : string) (cats : list Category) :
  existsb (same_name name) cats = true
  <-> exists c, c ∈ cats /\ str_lower (get_name c) = str_lower name.
Proof using Type.
  rewrite existsb_exists. split; intros (c & Hin & Hc); exists c.
  - split; [by apply list_elem_of_In|]. by apply String.eqb_eq.
  - split; [by apply list_elem_of_In|]. by apply String.eqb_eq.
Qed.

(** A rejected [add_category]: one message, nothing else changes. *)
Lemma add_category_duplicate_run (s : state) (name : string) (budget_limit : pyval) :
  existsb (same_name name) (categories s) = true ->
  add_category name budget_limit s = (Ret tt, printed s (CategoryExists name)).
Proof using Type.
  intros H. unfold add_category, bind at 1, get_state. rewrite H. reflexivity.
Qed.

(** An accepted [add_category] with a float limit. *)
Lemma add_category_new_run (s : state) (name : string) (limit : float) :
  existsb (same_name name) (categories s) = false ->
  add_category name (VFloat limit) s =
  (Ret tt,
   printed
     (_save_categories (with_categories s (categories s ++ [mkCategory name limit]))).2
     (CategoryAdded name)).
Proof using Type.
  intros H. unfold add_category, bind at 1, get_state. rewrite H.
  unfold lift, Category_init, bind at 1. cbn [py_float as_str obind].
  unfold set_categories, bind at 1 2. rewrite save_categories_run. reflexivity.
Qed.

Lemma categories_after_save (s : state) :
  categories (_save_categories s).2 = categories s.
Proof using Type.
  rewrite save_categories_run. cbn [snd]. by destruct (bool_decide _).
Qed.

(** In a list whose keys are pairwise different, a key that occurs selects
    exactly one element. *)
Lemma filter_key_once {A} (f : A -> string) (l : list A) (k : string) :
  NoDup (map f l) -> k ∈ map f l -> length (filter (fun c => f c = k) l) = 1%nat.
Proof using Type.
  induction l as [|a l IH]; intros Hnd Hin.
  - by apply elem_of_nil in Hin.
  - cbn [map] in *. apply NoDup_cons in Hnd as [Hfresh Hnd].
    destruct (decide (f a = k)) as [Ha|Ha].
    + rewrite filter_cons_True by done. subst k.
      rewrite filter_none; [done|]. intros c Hc Heq. apply Hfresh. rewrite <- Heq.
      by apply list_elem_of_fmap_2.
    + rewrite filter_cons_False by done. apply IH; [done|].
      apply elem_of_cons in Hin as [Hin|Hin]; [congruence | done].
Qed.

(** C5 (as amended).  When some stored category has the same lower-case
    name, [add_category] prints the already-exists message and changes
    neither the category list nor any file.  Hence, for two names with the
    same lower-case form, the second of two consecutive calls changes
    nothing.  The two calls leave exactly one category with that name when
    no stored category had it before (the one the first call appended), and
    more generally whenever the stored names were pairwise different
    ignoring case; the collection itself is not required to be so. *)
Theorem add_category_rejects_duplicates
    (s : state) (n1 n2 : string) (l1 l2 : float) (budget_limit : pyval) :
  str_lower n1 = str_lower n2 ->
  ((exists c, c ∈ categories s /\ str_lower (get_name c) = str_lower n1) ->
   add_category n1 budget_limit s = (Ret tt, printed s (CategoryExists n1)))
  /\ (add_category n1 (VFloat l1) s).1 = Ret tt
  /\ (add_category n2 (VFloat l2) (add_category n1 (VFloat l1) s).2).1 = Ret tt
  /\ categories (add_category n2 (VFloat l2) (add_category n1 (VFloat l1) s).2).2
     = categories (add_category n1 (VFloat l1) s).2
  /\ fs (add_category n2 (VFloat l2) (add_category n1 (VFloat l1) s).2).2
     = fs (add_category n1 (VFloat l1) s).2
  /\ last (stdout (add_category n2 (VFloat l2) (add_category n1 (VFloat l1) s).2).2)
     = Some (CategoryExists n2)
  /\ ((forall c, c ∈ categories s -> str_lower (get_name c) <> str_lower n1) ->
      categories (add_category n2 (VFloat l2) (add_category n1 (VFloat l1) s).2).2
      = (categories s ++ [mkCategory n1 l1])%list
      /\ length (filter (fun c => str_lower (get_name c) = str_lower n1)
                   (categories (add_category n2 (VFloat l2)
                                  (add_category n1 (VFloat l1) s).2).2)) = 1%nat)
  /\ (distinct_names (categories s) ->
      length (filter (fun c => str_lower (get_name c) = str_lower n1)
                (categories (add_category n2 (VFloat l2)
                               (add_category n1 (VFloat l1) s).2).2)) = 1%nat).
Proof using Type.
  intros Hcase. split.
  { intros Hdup. apply add_category_duplicate_run. by apply existsb_same_name. }
  assert (Hsecond : existsb (same_name n2) (categories (add_category n1 (VFloat l1) s).2) = true).
  { apply existsb_same_name. rewrite <- Hcase.
    destruct (existsb (same_name n1) (categories s)) eqn:E.
    - rewrite add_category_duplicate_run by done. by apply existsb_same_name.
    - rewrite add_category_new_run by done. exists (mkCategory n1 l1). split; [|done].
      cbn [snd printed categories]. rewrite categories_after_save.
      cbn [with_categories categories]. apply elem_of_app. right. left. }
  rewrite (add_category_duplicate_run _ n2 _ Hsecond). cbn [fst snd printed categories fs stdout].
  split; [|split; [done|split; [done|split; [done|split; [by rewrite last_snoc|]]]]].
  { destruct (existsb (same_name n1) (categories s)) eqn:E.
    - by rewrite add_category_duplicate_run.
    - by rewrite add_category_new_run. }
  assert (Hnew : existsb (same_name n1) (categories s) = false ->
            categories (add_category n1 (VFloat l1) s).2
            = (categories s ++ [mkCategory n1 l1])%list
            /\ length (filter (fun c => str_lower (get_name c) = str_lower n1)
                         (categories (add_category n1 (VFloat l1) s).2)) = 1%nat).
  { intros E. rewrite add_category_new_run by done.
    cbn [snd printed categories]. rewrite categories_after_save.
    cbn [with_categories categories]. split; [done|].
    rewrite filter_app, length_app.
    rewrite (filter_none _ (categories s)).
    - rewrite filter_cons_True by done. reflexivity.
    - intros c Hin Hc.
      assert (existsb (same_name n1) (categories s) = true)
        by (apply existsb_same_name; eauto).
      congruence. }
  split.
  - intros Hfresh. apply Hnew. apply not_true_is_false.
    intros (c & Hin & Hc)%existsb_same_name. by apply (Hfresh c).
  - intros Hdistinct. destruct (existsb (same_name n1) (categories s)) eqn:E.
    + rewrite add_category_duplicate_run by done. cbn [snd printed categories].
      apply existsb_same_name in E as (c & Hin & Hc).
      apply (filter_key_once (fun c => str_lower (get_name c))); [exact Hdistinct|].
      rewrite <- Hc.
      by apply (list_elem_of_fmap_2 (fun c : Category => str_lower (get_name c))).
    + by apply Hnew.
Qed.

(** *** Monthly report *)

Lemma append_String (c : Ascii.ascii) (p rest : string) :
  String c p ++ rest = String c (p ++ rest).
Proof using Type. reflexivity. Qed.

Lemma startswith_prefix (s p : string) :
  startswith s p = true <-> exists rest, s = p ++ rest.
Proof using Type.
  revert s. induction p as [|c p IH]; intros s; simpl.
  - split; [intros _; by exists s | done].
  - destruct s as [|d s]; simpl.
    + split; [done | intros [rest H]; discriminate].
    + destruct (Ascii.eqb_spec c d) as [->|Hne].
      * rewrite IH. split; intros [rest H]; exists rest;
          rewrite append_String in *; congruence.
      * split; [done | intros [rest H]; rewrite append_String in H; congruence].
Qed.

Lemma sum_left_snoc (xs : list float) (x : float) :
  sum_left (xs ++ [x]) = PrimFloat.add (sum_left xs) x.
Proof using Type. unfold sum_left. by rewrite fold_left_app. Qed.

Lemma elem_of_first_occurrences (x : string) (l : list string) :
  x ∈ first_occurrences l <-> x ∈ l.
Proof using Type.
  induction l as [|a l IH]; simpl; [done|].
  rewrite !elem_of_cons, list_elem_of_filter, IH.
  destruct (decide (x = a)) as [->|Hne]; [split; intros _; by left|].
  split; [intros [?|[_ ?]]; [by left | by right]
         | intros [?|?]; [by left | right; by split]].
Qed.

Lemma NoDup_first_occurrences (l : list string) : NoDup (first_occurrences l).
Proof using Type.
  induction l as [|a l IH]; simpl; [constructor|].
  constructor.
  - rewrite list_elem_of_filter. intros [Hne _]. by apply Hne.
  - by apply NoDup_filter.
Qed.

Lemma first_occurrences_snoc (l : list string) (x : string) :
  first_occurrences (l ++ [x])
  = if decide (x ∈ l) then first_occurrences l else (first_occurrences l ++ [x])%list.
Proof using Type.
  induction l as [|a l IH]; simpl; [done|].
  rewrite IH. clear IH.
  destruct (decide (x ∈ a :: l)) as [Hin|Hin]; destruct (decide (x ∈ l)) as [Hl|Hl].
  - done.
  - apply elem_of_cons in Hin as [->|Hin]; [|contradiction].
    rewrite filter_app, filter_cons_False, filter_nil, app_nil_r; [done|].
    intros Hne. by apply Hne.
  - exfalso. apply Hin. by right.
  - rewrite filter_app, filter_cons_True, filter_nil; [done|].
    intros ->. apply Hin. left.
Qed.

Section Dict.
Variable f : string -> float.

Lemma dict_get_map (ks : list string) (k : string) :
  dict_get (map (fun c => (c, f c)) ks) k
  = if decide (k ∈ ks) then Some (f k) else None.
Proof using Type.
  induction ks as [|a ks IH]; simpl; [done|].
  destruct (String.eqb_spec a k) as [->|Hne].
  - destruct (decide (k ∈ k :: ks)) as [_|Hn]; [done|]. exfalso. apply Hn. left.
  - rewrite IH.
    destruct (decide (k ∈ ks)) as [Hin|Hin]; destruct (decide (k ∈ a :: ks)) as [Hc|Hc];
      try done.
    + exfalso. apply Hc. by right.
    + apply elem_of_cons in Hc as [->|Hc]; contradiction.
Qed.

Lemma dict_set_map_new (ks : list string) (k : string) (v : float) :
  k ∉ ks ->
  dict_set (map (fun c => (c, f c)) ks) k v
  = (map (fun c => (c, f c)) ks ++ [(k, v)])%list.
Proof using Type.
  induction ks as [|a ks IH]; simpl; [done|]. intros Hk.
  apply not_elem_of_cons in Hk as [Hne Hk].
  destruct (String.eqb_spec a k); [congruence|]. by rewrite IH.
Qed.

Lemma dict_set_map_old (ks : list string) (k : string) (v : float) :
  NoDup ks -> k ∈ ks ->
  dict_set (map (fun c => (c, f c)) ks) k v
  = map (fun c => (c, if decide (c = k) then v else f c)) ks.
Proof using Type.
  induction ks as [|a ks IH]; simpl; intros Hnd Hk; [by apply elem_of_nil in Hk|].
  apply NoDup_cons in Hnd as [Ha Hnd].
  destruct (String.eqb_spec a k) as [->|Hne].
  - rewrite decide_True by done. f_equal.
    apply map_ext_in. intros c Hc%list_elem_of_In.
    rewrite decide_False; [done|]. intros ->. contradiction.
  - rewrite decide_False by done. f_equal. apply IH; [done|].
    apply elem_of_cons in Hk as [->|Hk]; [contradiction | done].
Qed.

End Dict.

Lemma subtotal_snoc (cat : string) (exps : list ExpenseObj) (e : ExpenseObj) :
  subtotal cat (exps ++ [e])
  = if decide (get_category e = cat)
    then PrimFloat.add (subtotal cat exps) (get_amount e)
    else subtotal cat exps.
Proof using Type.
  unfold subtotal, in_category. rewrite filter_app.
  destruct (decide (get_category e = cat)) as [H|H].
  - rewrite (filter_cons_True _ e) by done. rewrite filter_nil, map_app. apply sum_left_snoc.
  - rewrite (filter_cons_False _ e) by done. by rewrite filter_nil, app_nil_r.
Qed.

(** The running totals of the loop are the per-category subtotals, keyed in
    order of first appearance. *)
Lemma category_totals_spec (exps : list ExpenseObj) :
  category_totals exps
  = map (fun cat => (cat, subtotal cat exps)) (first_occurrences (map get_category exps)).
Proof using Type.
  induction exps as [|e exps IH] using rev_ind; [done|].
  unfold category_totals in *. rewrite fold_left_app. simpl. rewrite IH.
  unfold accumulate. rewrite map_app. simpl.
  rewrite first_occurrences_snoc, dict_get_map.
  destruct (decide (get_category e ∈ map get_category exps)) as [Hin|Hin].
  - rewrite decide_True by (by apply elem_of_first_occurrences). simpl.
    rewrite dict_set_map_old
      by (auto using NoDup_first_occurrences; by apply elem_of_first_occurrences).
    apply map_ext. intros cat. rewrite subtotal_snoc.
    destruct (decide (cat = get_category e)) as [->|Hne].
    + by rewrite decide_True.
    + by rewrite decide_False.
  - rewrite decide_False by (by rewrite elem_of_first_occurrences). simpl.
    rewrite dict_set_map_new by (by rewrite elem_of_first_occurrences).
    rewrite map_app. simpl. f_equal.
    + apply map_ext_in. intros cat Hc.
      rewrite <- list_elem_of_In, elem_of_first_occurrences in Hc.
      rewrite subtotal_snoc. rewrite decide_False; [done|].
      intros Heq. apply Hin. by rewrite Heq.
    + rewrite subtotal_snoc, decide_True by done.
      unfold subtotal, in_category.
      rewrite (filter_none _ exps); [done|].
      intros x Hx Hc. apply Hin. rewrite <- Hc. by apply list_elem_of_fmap_2.
Qed.


(** C7.  For a non-empty month key (in particular one of the form YYYY-MM),
    the monthly report is built from exactly the expenses whose date starts
    with the key, kept in ledger order: its total line carries [sum] of their
    amounts, and its breakdown has one line per category, in order of first
    appearance among them, carrying the amounts of that category added up in
    order. *)
Theorem monthly_report_contents (exps : list ExpenseObj) (month : string) :
  month <> "" ->
  let included := filter (fun e => startswith (get_date e) month = true) exps in
  MonthlyReport_generate_report (MonthlyReport_init exps (Some month))
  = ([LMonthlyTitle month; LRule;
      LTotalExpenses (py_sum (map get_amount included)); LBreakdownTitle]
     ++ map (fun cat => LBreakdown cat (subtotal cat included))
          (first_occurrences (map get_category included)))%list
  /\ (forall e, e ∈ included <->
                e ∈ exps /\ exists rest, get_date e = month ++ rest).
Proof using Type.
  intros Hmonth included. split.
  - unfold MonthlyReport_generate_report, monthly_expenses, MonthlyReport_init.
    destruct month as [|c month]; [done|]. cbn [truthy mr_month mr_expenses].
    fold included. rewrite category_totals_spec, map_map. reflexivity.
  - intros e. unfold included. rewrite list_elem_of_filter, startswith_prefix.
    split; intros [? ?]; by split.
Qed.

(** *** Sign of a binary64 difference

    The remainder test of the category report compares [budget_limit - total]
    with 0.  These lemmas relate that test to the comparison of the two
    operands, through the specification of binary64 subtraction. *)

Section Binary64.
Local Open Scope Z_scope.

Lemma digits2_pos_bounds m :
  2 ^ (Zpos (digits2_pos m) - 1) <= Zpos m < 2 ^ Zpos (digits2_pos m).
Proof using Type.
  induction m as [m IH|m IH|]; cbn [digits2_pos].
  - rewrite Pos2Z.inj_succ, Pos2Z.inj_xI.
    replace (Z.succ (Zpos (digits2_pos m)) - 1) with (Z.succ (Zpos (digits2_pos m) - 1)) by lia.
    rewrite !Z.pow_succ_r by lia.
    generalize dependent (2 ^ (Z.pos (digits2_pos m) - 1)).
    generalize dependent (2 ^ Z.pos (digits2_pos m)). lia.
  - rewrite Pos2Z.inj_succ. change (Z.pos m~0) with (2 * Z.pos m).
    replace (Z.succ (Zpos (digits2_pos m)) - 1) with (Z.succ (Zpos (digits2_pos m) - 1)) by lia.
    rewrite !Z.pow_succ_r by lia.
    generalize dependent (2 ^ (Z.pos (digits2_pos m) - 1)).
    generalize dependent (2 ^ Z.pos (digits2_pos m)). lia.
  - simpl. lia.
Qed.

Lemma shr_1_m (mrs : shr_record) :
  0 <= shr_m mrs -> shr_m (shr_1 mrs) = shr_m mrs / 2.
Proof using Type.
  rewrite <- Z.div2_div. destruct mrs as [mm r s]. cbn [shr_m]. intros H.
  destruct mm as [|[p|p|]|p]; try reflexivity. lia.
Qed.

Lemma iter_shr_1_m (p : positive) (mrs : shr_record) :
  0 <= shr_m mrs ->
  shr_m (SpecFloat.iter_pos shr_1 p mrs) = shr_m mrs / 2 ^ Zpos p.
Proof using Type.
  revert mrs. induction p as [p IH|p IH|]; intros mrs H; cbn [SpecFloat.iter_pos].
  - assert (Hp : 0 < 2 ^ Zpos p) by (apply Z.pow_pos_nonneg; lia).
    assert (H1 : 0 <= shr_m (shr_1 mrs)) by (rewrite shr_1_m by done; apply Z.div_pos; lia).
    assert (H2 : 0 <= shr_m (SpecFloat.iter_pos shr_1 p (shr_1 mrs)))
      by (rewrite IH by done; apply Z.div_pos; lia).
    rewrite IH, IH, shr_1_m by done.
    replace (Z.pos p~1) with (1 + Z.pos p + Z.pos p) by lia.
    rewrite !Z.pow_add_r, !Z.div_div by lia. f_equal.
    change (2 ^ 1) with 2. lia.
  - assert (Hp : 0 < 2 ^ Zpos p) by (apply Z.pow_pos_nonneg; lia).
    assert (H2 : 0 <= shr_m (SpecFloat.iter_pos shr_1 p mrs))
      by (rewrite IH by done; apply Z.div_pos; lia).
    rewrite IH, IH by done.
    replace (Z.pos p~0) with (Z.pos p + Z.pos p) by lia.
    rewrite !Z.pow_add_r, !Z.div_div by lia. reflexivity.
  - change (2 ^ 1) with 2. rewrite shr_1_m by done. reflexivity.
Qed.


Lemma shr_record_of_loc_m (mz : Z) (l : location) :
  shr_m (shr_record_of_loc mz l) = mz.
Proof using Type. by destruct l as [|[]]. Qed.

Lemma shr_fexp_positive (mz e : Z) (l : location) :
  0 < mz -> emin <= e ->
  0 < shr_m (shr_fexp prec emax mz e l).1 /\ emin <= (shr_fexp prec emax mz e l).2.
Proof using Type.
  intros Hm He. destruct mz as [|p|p]; try lia.
  unfold shr_fexp, shr. cbn [Zdigits2].
  pose proof (digits2_pos_bounds p) as [Hlo _].
  destruct (fexp prec emax (Z.pos (digits2_pos p) + e) - e) as [|q|q] eqn:Hn;
    cbn [fst snd]; rewrite ?shr_record_of_loc_m; try (split; lia).
  unfold fexp, SpecFloat.emin, prec, emax in *.
  rewrite iter_shr_1_m by (rewrite shr_record_of_loc_m; lia).
  rewrite shr_record_of_loc_m. split; [|lia].
  apply Z.div_str_pos. split; [apply Z.pow_pos_nonneg; lia|].
  etransitivity; [|exact Hlo]. apply Z.pow_le_mono_r; lia.
Qed.

Lemma round_nearest_even_ge (mz : Z) (l : location) :
  mz <= round_nearest_even mz l.
Proof using Type. destruct l as [|[]]; simpl; try destruct (Z.even mz); lia. Qed.

Lemma binary_round_aux_nonzero (sx : bool) (mz e : Z) (l : location) :
  0 < mz -> emin <= e ->
  signed_nonzero sx (binary_round_aux prec emax sx mz e l).
Proof using Type.
  intros Hm He. unfold binary_round_aux.
  destruct (shr_fexp_positive mz e l Hm He) as [Hm1 He1].
  destruct (shr_fexp prec emax mz e l) as [mrs1 e1]. cbn [fst snd] in *.
  pose proof (round_nearest_even_ge (shr_m mrs1) (loc_of_shr_record mrs1)) as Hge.
  destruct (shr_fexp_positive (round_nearest_even (shr_m mrs1) (loc_of_shr_record mrs1))
              e1 loc_Exact) as [Hm2 He2]; [lia|done|].
  destruct (shr_fexp prec emax _ e1 loc_Exact) as [mrs2 e2]. cbn [fst snd] in *.
  destruct (shr_m mrs2); try lia. by destruct (_ <=? _).
Qed.

Lemma Pos_iter_xO (m d : positive) :
  Z.pos (Pos.iter xO m d) = Z.pos m * 2 ^ Z.pos d.
Proof using Type.
  induction d as [|d IH] using Pos.peano_ind.
  - simpl. lia.
  - rewrite Pos.iter_succ. change (Z.pos (Pos.iter xO m d)~0) with (2 * Z.pos (Pos.iter xO m d)).
    rewrite IH, Pos2Z.inj_succ, Z.pow_succ_r by lia. lia.
Qed.

Lemma shl_align_value (m : positive) (e ez : Z) :
  ez <= e -> Z.pos (shl_align m e ez).1 = Z.pos m * 2 ^ (e - ez).
Proof using Type.
  intros Hle. unfold shl_align.
  destruct (ez - e) as [|d|d] eqn:Hd; cbn [fst]; try lia.
  - replace (e - ez) with 0 by lia. simpl. lia.
  - rewrite Pos_iter_xO. f_equal. f_equal. lia.
Qed.

Lemma binary_round_nonzero (sx : bool) (m : positive) (e : Z) :
  emin <= e -> signed_nonzero sx (binary_round prec emax sx m e).
Proof using Type.
  intros He. unfold binary_round.
  destruct (shl_align m e (fexp prec emax (Z.pos (digits2_pos m) + e))) as [mz ez] eqn:Ha.
  apply binary_round_aux_nonzero; [lia|].
  unfold shl_align in Ha.
  destruct (fexp prec emax (Z.pos (digits2_pos m) + e) - e) eqn:Hd;
    injection Ha as _ <-; try done.
  unfold fexp. lia.
Qed.

Lemma binary_normalize_sign (M e : Z) :
  emin <= e ->
  match M ?= 0 with
  | Lt => signed_nonzero true (binary_normalize prec emax M e false)
  | Eq => binary_normalize prec emax M e false = S754_zero false
  | Gt => signed_nonzero false (binary_normalize prec emax M e false)
  end.
Proof using Type.
  intros He. destruct M; simpl; [done| |]; by apply binary_round_nonzero.
Qed.

Lemma bounded_inv (m : positive) (e : Z) :
  bounded prec emax m e = true ->
  emin <= e /\ Z.pos (digits2_pos m) <= prec
  /\ (emin < e -> Z.pos (digits2_pos m) = prec).
Proof using Type.
  unfold bounded, canonical_mantissa, fexp, SpecFloat.emin, prec, emax.
  intros [Hc _]%andb_true_iff. apply Z.eqb_eq in Hc. lia.
Qed.


(** Comparing two valid positive finite numbers by exponent, then by
    mantissa, is comparing their mantissas once aligned. *)
Lemma compare_aligned (mx my : positive) (ex ey : Z) :
  bounded prec emax mx ex = true -> bounded prec emax my ey = true ->
  match ex ?= ey with
  | Lt => Lt
  | Gt => Gt
  | Eq => Pos.compare_cont Eq mx my
  end
  = (Z.pos (shl_align mx ex (Z.min ex ey)).1 ?= Z.pos (shl_align my ey (Z.min ex ey)).1).
Proof using Type.
  intros (Hex & Hdx & Hnx)%bounded_inv (Hey & Hdy & Hny)%bounded_inv.
  rewrite !shl_align_value by lia.
  pose proof (digits2_pos_bounds mx) as [Hxl Hxu].
  pose proof (digits2_pos_bounds my) as [Hyl Hyu].
  assert (Hpow : forall d, d <= prec -> 2 ^ d <= 2 ^ prec)
    by (intros d Hd; apply Z.pow_le_mono_r; lia).
  assert (Hshift : forall k, 0 < k -> 2 <= 2 ^ k).
  { intros k Hk. change 2 with (2 ^ 1) at 1. apply Z.pow_le_mono_r; lia. }
  destruct (Z.compare_spec ex ey) as [->|Hlt|Hgt].
  - rewrite Z.min_id, Z.sub_diag, !Z.mul_1_r. reflexivity.
  - rewrite Z.min_l, Z.sub_diag, Z.mul_1_r by lia. symmetry. apply Z.compare_lt_iff.
    rewrite Hny in Hyl by lia. specialize (Hpow _ Hdx). specialize (Hshift (ey - ex)).
    replace (2 ^ prec) with (2 * 2 ^ (prec - 1)) in Hpow by reflexivity.
    nia.
  - rewrite Z.min_r, Z.sub_diag, Z.mul_1_r by lia. symmetry. apply Z.compare_gt_iff.
    rewrite Hnx in Hxl by lia. specialize (Hpow _ Hdy). specialize (Hshift (ex - ey)).
    replace (2 ^ prec) with (2 * 2 ^ (prec - 1)) in Hpow by reflexivity.
    nia.
Qed.

Lemma SFsub_finite (mx my : positive) (ex ey : Z) (sy : bool) :
  bounded prec emax mx ex = true -> bounded prec emax my ey = true ->
  match SFcompare (S754_finite false mx ex) (S754_finite sy my ey) with
  | Some Lt => signed_nonzero true (SF64sub (S754_finite false mx ex) (S754_finite sy my ey))
  | Some Eq => SF64sub (S754_finite false mx ex) (S754_finite sy my ey) = S754_zero false
  | Some Gt => signed_nonzero false (SF64sub (S754_finite false mx ex) (S754_finite sy my ey))
  | None => False
  end.
Proof using Type.
  intros Hx Hy. unfold SF64sub, SFsub. cbn [SFcompare cond_Zopp].
  pose proof (bounded_inv _ _ Hx) as [Hex _]. pose proof (bounded_inv _ _ Hy) as [Hey _].
  assert (Hez : emin <= Z.min ex ey) by lia.
  destruct sy; cbn [cond_Zopp].
  - pose proof (binary_normalize_sign
                  (Z.pos (shl_align mx ex (Z.min ex ey)).1
                   - - Z.pos (shl_align my ey (Z.min ex ey)).1) _ Hez) as Hs.
    destruct (Z.compare_spec (Z.pos (shl_align mx ex (Z.min ex ey)).1
                              - - Z.pos (shl_align my ey (Z.min ex ey)).1) 0) as [H|H|H];
      [lia | lia | exact Hs].
  - rewrite (compare_aligned mx my ex ey Hx Hy).
    pose proof (binary_normalize_sign
                  (Z.pos (shl_align mx ex (Z.min ex ey)).1
                   - Z.pos (shl_align my ey (Z.min ex ey)).1) _ Hez) as Hs.
    destruct (Z.compare_spec (Z.pos (shl_align mx ex (Z.min ex ey)).1)
                (Z.pos (shl_align my ey (Z.min ex ey)).1)) as [H|H|H];
      destruct (Z.compare_spec (Z.pos (shl_align mx ex (Z.min ex ey)).1
                                - Z.pos (shl_align my ey (Z.min ex ey)).1) 0) as [H'|H'|H'];
      try lia; exact Hs.
Qed.


Lemma SFcompare_swap (x y : spec_float) :
  SFcompare y x = option_map CompOpp (SFcompare x y).
Proof using Type.
  destruct x as [[]|[]| |[] mx ex], y as [[]|[]| |[] my ey]; try reflexivity;
    cbn [SFcompare option_map]; f_equal;
    rewrite (Z.compare_antisym ex ey); destruct (ex ?= ey); cbn [CompOpp]; try reflexivity;
    rewrite (Pos.compare_cont_antisym mx my Eq); cbn [CompOpp];
    by destruct (Pos.compare_cont Eq mx my).
Qed.

(** The sign of [x - y] for a positive [x]: non-negative when [y <= x]
    (unless both are +infinity, whose difference is NaN) and negative when
    [x < y]. *)
Lemma SFsub_sign (x y : spec_float) :
  valid_binary x = true -> valid_binary y = true ->
  SFltb (S754_zero false) x = true ->
  (SFleb y x = true ->
   ~ (x = S754_infinity false /\ y = S754_infinity false) ->
   SFleb (S754_zero false) (SF64sub x y) = true)
  /\ (SFltb x y = true ->
      SFltb (SF64sub x y) (S754_zero false) = true
      /\ SFleb (S754_zero false) (SF64sub x y) = false).
Proof using Type.
  intros Hx Hy Hpos.
  destruct x as [sx|[]| |[] mx ex]; try discriminate;
    destruct y as [[]|[]| |sy my ey]; try (split; [done | discriminate]).
  - split; [intros _ Hinf; exfalso; by apply Hinf | discriminate].
  - split; [discriminate | done].
  - cbn [valid_binary] in Hx, Hy.
    pose proof (SFsub_finite mx my ex ey sy Hx Hy) as Hcases.
    unfold SFleb, SFltb. rewrite (SFcompare_swap (S754_finite false mx ex)).
    destruct (SFcompare (S754_finite false mx ex) (S754_finite sy my ey)) as [[]|];
      cbn [option_map CompOpp]; try done.
    + rewrite Hcases. done.
    + split; [done|]. intros _.
      destruct (SF64sub _ _) as [|[]| |[]]; try done; discriminate.
    + split; [|done]. intros _ _.
      destruct (SF64sub _ _) as [|[]| |[]]; try done; discriminate.
Qed.

(** The same on binary64 values. *)
Lemma float_sub_sign (limit spent : float) :
  PrimFloat.ltb 0 limit = true ->
  (PrimFloat.leb spent limit = true ->
   ~ (limit = infinity /\ spent = infinity) ->
   PrimFloat.leb 0 (PrimFloat.sub limit spent) = true)
  /\ (PrimFloat.ltb limit spent = true ->
      PrimFloat.ltb (PrimFloat.sub limit spent) 0 = true
      /\ PrimFloat.leb 0 (PrimFloat.sub limit spent) = false).
Proof using Type.
  rewrite !FloatAxioms.ltb_spec, !FloatAxioms.leb_spec, FloatAxioms.sub_spec.
  change (Prim2SF 0) with (S754_zero false).
  intros Hpos.
  destruct (SFsub_sign (Prim2SF limit) (Prim2SF spent)
              (Prim2SF_valid limit) (Prim2SF_valid spent) Hpos) as [Ha Hb].
  split; [|exact Hb].
  intros Hle Hinf. apply Ha; [done|]. intros [H1 H2]. apply Hinf.
  split; apply Prim2SF_inj; [rewrite H1 | rewrite H2]; reflexivity.
Qed.

Lemma float_zero_no_budget (limit : float) :
  PrimFloat.eqb limit 0 = true -> PrimFloat.ltb 0 limit = false.
Proof using Type.
  rewrite FloatAxioms.eqb_spec, FloatAxioms.ltb_spec. change (Prim2SF 0) with (S754_zero false).
  unfold SFeqb, SFltb. by destruct (Prim2SF limit) as [[]|[]| |[]].
Qed.

Lemma float_abs_negative (r : float) :
  PrimFloat.ltb r 0 = true ->
  PrimFloat.abs r = PrimFloat.opp r /\ PrimFloat.ltb 0 (PrimFloat.abs r) = true.
Proof using Type.
  rewrite !FloatAxioms.ltb_spec, FloatAxioms.abs_spec.
  change (Prim2SF 0) with (S754_zero false). intros Hneg.
  split.
  - apply Prim2SF_inj. rewrite FloatAxioms.abs_spec, FloatAxioms.opp_spec.
    by destruct (Prim2SF r) as [[]|[]| |[]].
  - by destruct (Prim2SF r) as [[]|[]| |[]].
Qed.

End Binary64.

(** *** Category report *)

Lemma cat_expenses_without (before after : list ExpenseObj) (e : ExpenseObj)
    (cat_name : string) :
  get_category e <> cat_name ->
  cat_expenses (before ++ e :: after) cat_name = cat_expenses (before ++ after) cat_name.
Proof using Type.
  intros Hne. unfold cat_expenses.
  by rewrite !filter_app, filter_cons_False.
Qed.

(** Every stored category has its block in the report. *)
Lemma category_block_in_report (exps : list ExpenseObj) (cats : list Category)
    (category : Category) :
  category ∈ cats ->
  exists before after,
    CategoryReport_generate_report (mkCategoryReport exps cats)
    = (before ++ category_block exps category ++ after)%list.
Proof using Type.
  intros (l1 & l2 & ->)%list_elem_of_split.
  exists ([LCategoryTitle; LRule] ++ concat (map (category_block exps) l1))%list,
         (concat (map (category_block exps) l2)).
  unfold CategoryReport_generate_report. cbn [cr_expenses cr_categories].
  rewrite map_app, concat_app. cbn [map concat]. by rewrite <- !app_assoc.
Qed.

(** C6 (as amended).  In the block of a category with limit [limit] and
    spent total [spent]: when [limit > 0] and [spent <= limit], and the two
    are not both +infinity, the last line is the within-budget line with the
    remainder [limit - spent], which is non-negative; when [limit > 0] and
    [spent > limit], the last line is the over-budget line with the absolute
    value of the remainder, which is negative; when [limit == 0] the block
    ends after the limit line. *)
Theorem category_block_budget_line (exps : list ExpenseObj) (category : Category) :
  let spent := py_sum (map get_amount (cat_expenses exps (get_name category))) in
  let limit := get_budget_limit category in
  let lines := [LCategoryName (get_name category); LTotalSpent spent; LBudgetLimit limit] in
  (PrimFloat.ltb 0 limit = true -> PrimFloat.leb spent limit = true ->
   ~ (limit = infinity /\ spent = infinity) ->
   category_block exps category = (lines ++ [LRemaining (PrimFloat.sub limit spent)])%list
   /\ PrimFloat.leb 0 (PrimFloat.sub limit spent) = true)
  /\ (PrimFloat.ltb 0 limit = true -> PrimFloat.ltb limit spent = true ->
      category_block exps category
      = (lines ++ [LOverBudget (PrimFloat.abs (PrimFloat.sub limit spent))])%list
      /\ PrimFloat.ltb (PrimFloat.sub limit spent) 0 = true
      /\ PrimFloat.abs (PrimFloat.sub limit spent)
         = PrimFloat.opp (PrimFloat.sub limit spent))
  /\ (PrimFloat.eqb limit 0 = true -> category_block exps category = lines).
Proof using Type.
  intros spent limit lines. unfold category_block, budget_line.
  fold spent limit lines. unfold fzero.
  split; [|split].
  - intros Hpos Hle Hinf.
    destruct (float_sub_sign limit spent Hpos) as [Hin _].
    by rewrite Hpos, (Hin Hle Hinf).
  - intros Hpos Hlt.
    destruct (float_sub_sign limit spent Hpos) as [_ Hover].
    destruct (Hover Hlt) as [Hneg Hnot].
    rewrite Hpos, Hnot. split; [done|]. split; [done|].
    by apply float_abs_negative.
  - intros Hzero. rewrite (float_zero_no_budget limit Hzero). apply app_nil_r.
Qed.

(** C10.  An expense whose category is not the name of any stored category
    is selected by no block of the category report, so the report is the
    one the ledger without that expense would give; yet the expense is one
    of the summands of its own category's entry in [get_category_summary]
    and of [get_total_spending]. *)
Theorem unmatched_expense_missing_from_category_report
    (s : state) (before after : list ExpenseObj) (e : ExpenseObj) :
  expenses s = (before ++ e :: after)%list ->
  (forall c, c ∈ categories s -> get_name c <> get_category e) ->
  (forall c, c ∈ categories s -> e ∉ cat_expenses (get_all_expenses s) (get_name c))
  /\ CategoryReport_generate_report
       (mkCategoryReport (get_all_expenses s) (get_categories s))
     = CategoryReport_generate_report
         (mkCategoryReport (before ++ after) (get_categories s))
  /\ (get_category e, subtotal (get_category e) (expenses s)) ∈ get_category_summary s
  /\ e ∈ in_category (get_category e) (expenses s)
  /\ get_total_spending s
     = py_sum (map get_amount before ++ get_amount e :: map get_amount after).
Proof using Type.
  intros Hexps Hnone. unfold get_all_expenses, get_categories.
  assert (He : e ∈ expenses s) by (rewrite Hexps, elem_of_app; right; left).
  repeat split.
  - intros c Hc Hin. unfold cat_expenses in Hin.
    apply list_elem_of_filter in Hin as [Hname _]. by apply (Hnone c).
  - unfold CategoryReport_generate_report. cbn [cr_expenses cr_categories].
    rewrite Hexps. f_equal. f_equal. apply map_ext_in. intros c Hc.
    unfold category_block. rewrite cat_expenses_without; [done|].
    intros Heq. apply (Hnone c); [by apply list_elem_of_In | done].
  - unfold get_category_summary. rewrite category_totals_spec.
    apply (list_elem_of_fmap_2 (fun cat => (cat, subtotal cat (expenses s)))).
    apply elem_of_first_occurrences. by apply list_elem_of_fmap_2.
  - unfold in_category. by apply list_elem_of_filter.
  - unfold get_total_spending. by rewrite Hexps, map_app.
Qed.


(** *** Construction of the manager *)

Lemma for_each_saved (exps : list ExpenseObj) (s : state) :
  for_each load_expense_item (map (fun exp => IDict (to_dict exp)) exps) s
  = (Ret tt, with_expenses s (expenses s ++ map reload exps)).
Proof using Type.
  revert s. induction exps as [|o exps IH]; intros s.
  - simpl. rewrite app_nil_r. by destruct s.
  - cbn [map for_each]. unfold bind at 1. unfold load_expense_item at 1.
    unfold bind at 1, lift. rewrite from_dict_to_dict. fold (reload o).
    unfold bind at 1, get_state, set_expenses. rewrite IH.
    cbn [with_expenses expenses]. by rewrite <- app_assoc.
Qed.

Lemma load_expenses_saved (s : state) (exps : list ExpenseObj) :
  fs s !! data_file s
    = Some (Parsed (DArray (map (fun exp => IDict (to_dict exp)) exps))) ->
  _load_expenses s =
  (Ret tt,
   printed (with_expenses s (map reload exps))
     (LoadedExpenses (length exps) (data_file s))).
Proof using Type.
  intros Hfile. unfold _load_expenses, bind at 1, get_state, try_except.
  unfold bind at 1, read_json. rewrite Hfile.
  unfold bind at 1, set_expenses. unfold bind at 1, lift, iterate.
  unfold bind at 1. rewrite for_each_saved.
  unfold bind, get_state, print. cbn [with_expenses expenses app].
  by rewrite length_map.
Qed.

Lemma load_expenses_corrupt (s : state) :
  fs s !! data_file s = Some Unparseable ->
  data_file s ∉ readonly s ->
  _load_expenses s =
  (Ret tt,
   with_file (with_expenses (printed s (ErrorLoadingExpenses JSONDecodeError)) [])
     (data_file s) (Parsed (DArray []))).
Proof using Type.
  intros Hfile Hw. unfold _load_expenses, bind at 1, get_state, try_except.
  unfold bind at 1, read_json. rewrite Hfile.
  unfold bind, print, set_expenses, write_json.
  cbn [with_expenses printed readonly]. by rewrite bool_decide_eq_false_2.
Qed.


(** [_load_categories] writes no file and prints no creation message. *)
Lemma load_categories_frame (s : state) :
  fs (_load_categories s).2 = fs s
  /\ forall path, CreatedCategoriesFile path ∈ stdout (_load_categories s).2 ->
                  CreatedCategoriesFile path ∈ stdout s.
Proof using Type.
  assert (Hone : forall m, (forall path, m <> CreatedCategoriesFile path) ->
            forall path, CreatedCategoriesFile path ∈ (stdout s ++ [m])%list ->
                         CreatedCategoriesFile path ∈ stdout s).
  { intros m Hm path [H|H]%elem_of_app; [done|].
    apply list_elem_of_singleton in H. by destruct (Hm path). }
  unfold _load_categories. run.
  destruct (fs s !! categories_file s) as [[|doc]|]; simpl;
    [split; [done|]; by apply Hone | | split; [done|]; by apply Hone].
  destruct (iterate doc) as [items|e|]; simpl;
    [| split; [done|]; by apply Hone | done].
  destruct (load_category_items items) as [cats|e|]; simpl;
    [split; [done|]; by apply Hone | split; [done|]; by apply Hone | done].
Qed.

Lemma initialize_files_run (s : state) :
  data_file s ∉ readonly s ->
  is_Some (fs s !! categories_file s) ->
  data_file s <> categories_file s ->
  _initialize_files s =
  (Ret tt,
   if bool_decide (is_Some (fs s !! data_file s)) then s
   else printed (with_file s (data_file s) (Parsed (DArray [])))
          (CreatedExpensesFile (data_file s))).
Proof using Type.
  intros Hw Hcats Hne. unfold _initialize_files, bind at 1, get_state.
  unfold bind at 1, path_exists.
  destruct (bool_decide (is_Some (fs s !! data_file s))); cbn [negb].
  - unfold bind at 1, ret at 1. unfold bind, path_exists.
    by rewrite bool_decide_eq_true_2.
  - unfold bind at 1. unfold bind at 1, write_json.
    rewrite bool_decide_eq_false_2 by done.
    unfold print at 1. unfold bind, path_exists.
    cbn [printed with_file fs]. rewrite lookup_insert_ne by done.
    by rewrite bool_decide_eq_true_2.
Qed.




Lemma load_expense_item_run (d : pydict) (s : state) :
  load_expense_item (IDict d) s =
  match expense_from_dict d with
  | Ret e => (Ret tt, with_expenses s (expenses s ++ [e]))
  | Raise x => (Raise x, s)
  | Untyped => (Untyped, s)
  end.
Proof using Type.
  unfold load_expense_item, bind, lift. by destruct (expense_from_dict d).
Qed.





(** ** Further properties of the ledger *)

(** *** Adding an expense *)

Lemma add_expense_run (s : state) (expense : ExpenseObj) :
  add_expense expense s =
  (Ret tt,
   printed (_save_expenses (with_expenses s (expenses s ++ [expense]))).2 ExpenseAdded).
Proof using Type.
  unfold add_expense, bind at 1, get_state. unfold set_expenses, bind at 1.
  unfold bind at 1. rewrite save_expenses_run. reflexivity.
Qed.

(** What [_save_expenses] leaves alone. *)
Lemma save_expenses_frame (s : state) :
  expenses (_save_expenses s).2 = expenses s
  /\ categories (_save_expenses s).2 = categories s
  /\ data_file (_save_expenses s).2 = data_file s
  /\ categories_file (_save_expenses s).2 = categories_file s
  /\ readonly (_save_expenses s).2 = readonly s
  /\ forall path, path <> data_file s -> fs (_save_expenses s).2 !! path = fs s !! path.
Proof using Type.
  rewrite save_expenses_run. cbn [snd].
  destruct (bool_decide (data_file s ∈ readonly s)); repeat split; try done.
  intros path Hne. cbn [printed with_file fs]. by rewrite lookup_insert_ne.
Qed.

Lemma save_categories_frame (s : state) :
  expenses (_save_categories s).2 = expenses s
  /\ categories (_save_categories s).2 = categories s
  /\ data_file (_save_categories s).2 = data_file s
  /\ categories_file (_save_categories s).2 = categories_file s
  /\ readonly (_save_categories s).2 = readonly s
  /\ forall path, path <> categories_file s ->
                  fs (_save_categories s).2 !! path = fs s !! path.
Proof using Type.
  rewrite save_categories_run. cbn [snd].
  destruct (bool_decide (categories_file s ∈ readonly s)); repeat split; try done.
  intros path Hne. cbn [printed with_file fs]. by rewrite lookup_insert_ne.
Qed.

(** The state [add_expense] leaves. *)
Lemma add_expense_state (s : state) (expense : ExpenseObj) :
  expenses (add_expense expense s).2 = (expenses s ++ [expense])%list
  /\ categories (add_expense expense s).2 = categories s
  /\ (data_file s ∉ readonly s ->
      fs (add_expense expense s).2
      = <[data_file s :=
            Parsed (DArray (map (fun exp => IDict (to_dict exp))
                              (expenses s ++ [expense])))]> (fs s)).
Proof using Type.
  rewrite add_expense_run, save_expenses_run.
  cbn [fst snd with_expenses data_file readonly expenses].
  destruct (bool_decide (data_file s ∈ readonly s)) eqn:Hro;
    cbn [printed with_file expenses categories fs stdout]; [|done].
  apply bool_decide_eq_true in Hro. repeat split; done.
Qed.

(** X1.  [add_expense] always returns; the new expense becomes the last
    element and the earlier ones keep their places; the store receives the
    whole new list when it is writable, and otherwise keeps its old content
    while the expense stays in memory and the failure is printed before the
    success message. *)
Theorem add_expense_appends (s : state) (expense : ExpenseObj) :
  (add_expense expense s).1 = Ret tt
  /\ expenses (add_expense expense s).2 = (expenses s ++ [expense])%list
  /\ categories (add_expense expense s).2 = categories s
  /\ last (stdout (add_expense expense s).2) = Some ExpenseAdded
  /\ (data_file s ∉ readonly s ->
      fs (add_expense expense s).2
      = <[data_file s :=
            Parsed (DArray (map (fun exp => IDict (to_dict exp))
                              (expenses s ++ [expense])))]> (fs s))
  /\ (data_file s ∈ readonly s ->
      fs (add_expense expense s).2 = fs s
      /\ stdout (add_expense expense s).2
         = (stdout s ++ [ErrorSavingExpenses (PermissionError (data_file s));
                         ExpenseAdded])%list).
Proof using Type.
  rewrite add_expense_run, save_expenses_run.
  cbn [fst snd with_expenses data_file readonly expenses].
  destruct (bool_decide (data_file s ∈ readonly s)) eqn:Hro;
    cbn [printed with_file expenses categories fs stdout].
  - apply bool_decide_eq_true in Hro.
    repeat split; try done; [apply last_snoc | by rewrite <- app_assoc].
  - apply bool_decide_eq_false in Hro.
    repeat split; try done. apply last_snoc.
Qed.

(** X2.  Deleting the index the ledger had as its length right after an
    [add_expense] removes the expense just added: the expense list is the one
    before the two calls, and the expense is named in the deletion message. *)
Theorem add_then_delete_last (s : state) (expense : ExpenseObj) :
  (delete_expense (Z.of_nat (length (expenses s))) (add_expense expense s).2).1 = Ret None
  /\ expenses (delete_expense (Z.of_nat (length (expenses s))) (add_expense expense s).2).2
     = expenses s
  /\ last (stdout (delete_expense (Z.of_nat (length (expenses s)))
                     (add_expense expense s).2).2)
     = Some (ExpenseDeleted expense).
Proof using Type.
  destruct (add_expense_state s expense) as (Hexps & _).
  assert (Hat : expenses (add_expense expense s).2 !! Z.to_nat (Z.of_nat (length (expenses s)))
                = Some expense).
  { rewrite Hexps, Nat2Z.id. by rewrite lookup_app_r, Nat.sub_diag. }
  rewrite (delete_expense_run _ _ expense); [| rewrite Hexps, length_app; simpl; lia | exact Hat].
  cbn [fst snd printed expenses stdout].
  destruct (save_expenses_frame
              (with_expenses (add_expense expense s).2
                 (delete (Z.to_nat (Z.of_nat (length (expenses s))))
                    (expenses (add_expense expense s).2)))) as (Hsaved & _).
  rewrite Hsaved. cbn [with_expenses expenses]. rewrite Hexps, Nat2Z.id.
  split; [done|]. split; [|apply last_snoc].
  rewrite delete_take_drop, take_app_length.
  rewrite drop_ge by (rewrite length_app; simpl; lia). apply app_nil_r.
Qed.

(** *** Saving and loading *)

Lemma reload_dated (exps : list ExpenseObj) :
  Forall dated exps -> map reload exps = exps.
Proof using Type.
  induction 1 as [|o exps Ho _ IH]; [done|]. cbn [map]. rewrite IH. f_equal.
  unfold reload, dated in *. by destruct (get_date o).
Qed.

(** X3.  With a writable expense store, loading right after saving gives
    back the saved list, in order, each expense equal to the saved one except
    that an empty date has become the current date; when every date is
    non-empty the loaded list is the saved list.  Loading writes nothing. *)
Theorem save_then_load_expenses (s : state) :
  data_file s ∉ readonly s ->
  (_load_expenses (_save_expenses s).2).1 = Ret tt
  /\ expenses (_load_expenses (_save_expenses s).2).2 = map reload (expenses s)
  /\ (Forall dated (expenses s) ->
      expenses (_load_expenses (_save_expenses s).2).2 = expenses s)
  /\ fs (_load_expenses (_save_expenses s).2).2 = fs (_save_expenses s).2
  /\ last (stdout (_load_expenses (_save_expenses s).2).2)
     = Some (LoadedExpenses (length (expenses s)) (data_file s)).
Proof using Type.
  intros Hw. rewrite save_expenses_run, bool_decide_eq_false_2 by done. cbn [snd].
  rewrite (load_expenses_saved _ (expenses s))
    by (cbn [printed with_file fs data_file]; apply lookup_insert_eq).
  cbn [fst snd printed with_expenses with_file expenses fs stdout data_file].
  repeat split; try done; [by apply reload_dated | apply last_snoc].
Qed.

Lemma Category_from_to_dict (c : Category) :
  Category_from_dict (Category_to_dict c) = Ret c.
Proof using Type. destruct c; vm_compute; reflexivity. Qed.

Lemma load_category_items_saved (cats : list Category) :
  load_category_items (map (fun cat => IDict (Category_to_dict cat)) cats) = Ret cats.
Proof using Type.
  induction cats as [|c cats IH]; [done|].
  cbn [map load_category_items]. by rewrite Category_from_to_dict, IH.
Qed.

Lemma load_categories_saved (s : state) (cats : list Category) :
  fs s !! categories_file s
    = Some (Parsed (DArray (map (fun cat => IDict (Category_to_dict cat)) cats))) ->
  _load_categories s =
  (Ret tt,
   printed (with_categories s cats) (LoadedCategories (length cats) (categories_file s))).
Proof using Type.
  intros Hfile. unfold _load_categories, bind, get_state, try_except, read_json, lift.
  rewrite Hfile. cbn [iterate]. by rewrite load_category_items_saved.
Qed.

(** X4.  With a writable categories store, loading right after saving gives
    back exactly the saved categories, names and limits, in order, and leaves
    the expenses alone. *)
Theorem save_then_load_categories (s : state) :
  categories_file s ∉ readonly s ->
  (_load_categories (_save_categories s).2).1 = Ret tt
  /\ categories (_load_categories (_save_categories s).2).2 = categories s
  /\ expenses (_load_categories (_save_categories s).2).2 = expenses s
  /\ fs (_load_categories (_save_categories s).2).2 = fs (_save_categories s).2
  /\ last (stdout (_load_categories (_save_categories s).2).2)
     = Some (LoadedCategories (length (categories s)) (categories_file s)).
Proof using Type.
  intros Hw. rewrite save_categories_run, bool_decide_eq_false_2 by done. cbn [snd].
  rewrite (load_categories_saved _ (categories s))
    by (cbn [printed with_file fs categories_file]; apply lookup_insert_eq).
  cbn [fst snd printed with_categories with_file categories expenses fs stdout
         categories_file].
  repeat split; try done. apply last_snoc.
Qed.

(** [_load_categories] never raises and never touches the expenses. *)
Lemma load_categories_keeps_expenses (s : state) :
  expenses (_load_categories s).2 = expenses s
  /\ forall e, (_load_categories s).1 <> Raise e.
Proof using Type.
  unfold _load_categories. run.
  destruct (fs s !! categories_file s) as [[|doc]|]; simpl; [done| |done].
  destruct (iterate doc) as [items|e|]; simpl; [|done|done].
  by destruct (load_category_items items) as [cats|e|].
Qed.

(** X5.  What [add_expense] wrote survives a restart: a manager constructed
    over the files that [add_expense] left (writable expense store, distinct
    paths, categories file present) starts with the old expenses followed by
    the new one, each as [reload] gives it, and its construction does not
    raise. *)
Theorem restart_reloads_expenses (s : state) (expense : ExpenseObj) :
  data_file s ∉ readonly s ->
  data_file s <> categories_file s ->
  is_Some (fs s !! categories_file s) ->
  expenses (ExpenseManager_init (data_file s) (categories_file s)
              (fs (add_expense expense s).2) (readonly s)).2
  = map reload (expenses s ++ [expense])
  /\ forall e,
       (ExpenseManager_init (data_file s) (categories_file s)
          (fs (add_expense expense s).2) (readonly s)).1 <> Raise e.
Proof using Type.
  intros Hw Hne Hcats.
  destruct (add_expense_state s expense) as (_ & _ & Hfs).
  rewrite (Hfs Hw). clear Hfs.
  set (files := <[data_file s := _]> (fs s)).
  set (s0 := mkState (data_file s) (categories_file s) [] [] files (readonly s) []).
  assert (Hdf : files !! data_file s
                = Some (Parsed (DArray (map (fun exp => IDict (to_dict exp))
                                          (expenses s ++ [expense])))))
    by apply lookup_insert_eq.
  assert (Hinit : ExpenseManager_init (data_file s) (categories_file s) files (readonly s)
                  = _load_categories
                      (printed (with_expenses s0 (map reload (expenses s ++ [expense])))
                         (LoadedExpenses (length (expenses s ++ [expense])) (data_file s)))).
  { unfold ExpenseManager_init, _load_data. fold s0. unfold bind at 1.
    rewrite (initialize_files_run s0); cbn [s0 fs data_file categories_file readonly]; try done.
    - rewrite bool_decide_eq_true_2 by (rewrite Hdf; eauto).
      unfold bind at 1. by rewrite (load_expenses_saved s0 (expenses s ++ [expense])).
    - unfold files. by rewrite lookup_insert_ne. }
  rewrite Hinit.
  destruct (load_categories_keeps_expenses
              (printed (with_expenses s0 (map reload (expenses s ++ [expense])))
                 (LoadedExpenses (length (expenses s ++ [expense])) (data_file s))))
    as [Hkeep Hnoraise].
  split; [by rewrite Hkeep | exact Hnoraise].
Qed.

Lemma for_each_app {A} (body : A -> M unit) (l1 l2 : list A) (s : state) :
  for_each body (l1 ++ l2) s =
  match for_each body l1 s with
  | (Ret _, s') => for_each body l2 s'
  | (Raise e, s') => (Raise e, s')
  | (Untyped, s') => (Untyped, s')
  end.
Proof using Type.
  revert s. induction l1 as [|x l1 IH]; intros s; [done|].
  cbn [app for_each]. unfold bind.
  destruct (body x s) as [[[]|e|] s1]; [|done|done].
  specialize (IH s1). unfold bind in IH. exact IH.
Qed.

(** X6.  One record that [from_dict] refuses costs the whole expense store:
    when the store (writable) holds saved expenses followed by a record on
    which [from_dict] raises, [_load_expenses] still returns, but the ledger
    is empty, the error is printed, and the file has been rewritten as an
    empty array, the records before and after the bad one included. *)
Theorem refused_record_empties_store
    (s : state) (good : list ExpenseObj) (d : pydict) (rest : list json_item) (e : exn) :
  fs s !! data_file s
    = Some (Parsed (DArray (map (fun exp => IDict (to_dict exp)) good ++ IDict d :: rest))) ->
  expense_from_dict d = Raise e ->
  data_file s ∉ readonly s ->
  (_load_expenses s).1 = Ret tt
  /\ expenses (_load_expenses s).2 = []
  /\ fs (_load_expenses s).2 = <[data_file s := Parsed (DArray [])]> (fs s)
  /\ stdout (_load_expenses s).2 = (stdout s ++ [ErrorLoadingExpenses e])%list.
Proof using Type.
  intros Hfile Hbad Hw.
  assert (Hrun : _load_expenses s
                 = (Ret tt,
                    with_file (with_expenses (printed s (ErrorLoadingExpenses e)) [])
                      (data_file s) (Parsed (DArray [])))).
  { unfold _load_expenses, bind at 1, get_state, try_except.
    unfold bind at 1, read_json. rewrite Hfile.
    unfold bind at 1, set_expenses. unfold bind at 1, lift, iterate.
    unfold bind at 1. rewrite for_each_app, for_each_saved.
    cbn [for_each]. unfold bind at 1. rewrite load_expense_item_run, Hbad.
    unfold bind, print, set_expenses, write_json.
    cbn [with_expenses printed readonly]. by rewrite bool_decide_eq_false_2. }
  rewrite Hrun. done.
Qed.

(** X7.  The recovery of [_load_expenses] is itself unprotected: with an
    unparseable expense store that cannot be opened for writing, the
    [PermissionError] of the rewrite leaves [_load_expenses] and
    [_load_data], after the load error has been printed and before the
    categories are read. *)
Theorem corrupt_readonly_store_raises (s : state) :
  fs s !! data_file s = Some Unparseable ->
  data_file s ∈ readonly s ->
  (_load_data s).1 = Raise (PermissionError (data_file s))
  /\ (_load_expenses s).1 = Raise (PermissionError (data_file s))
  /\ categories (_load_data s).2 = categories s
  /\ fs (_load_data s).2 = fs s
  /\ stdout (_load_data s).2 = (stdout s ++ [ErrorLoadingExpenses JSONDecodeError])%list.
Proof using Type.
  intros Hfile Hro.
  assert (Hload : _load_expenses s
                  = (Raise (PermissionError (data_file s)),
                     with_expenses (printed s (ErrorLoadingExpenses JSONDecodeError)) [])).
  { unfold _load_expenses, bind at 1, get_state, try_except.
    unfold bind at 1, read_json. rewrite Hfile.
    unfold bind, print, set_expenses, write_json.
    cbn [with_expenses printed readonly]. by rewrite bool_decide_eq_true_2. }
  unfold _load_data, bind. rewrite Hload. done.
Qed.

(** *** Updating an expense *)

Lemma apply_updates_fields (old : ExpenseObj) (amount : option float)
    (category description date : option string) :
  exists e',
    apply_updates old (VFloat <$> amount) category description date = Ret e'
    /\ get_amount e' = default (get_amount old) amount
    /\ get_category e' = default (get_category old) category
    /\ get_description e' = default (get_description old) description
    /\ get_date e' = default (get_date old) date
    /\ get_frequency e' = get_frequency old
    /\ (amount = None -> category = None -> description = None -> date = None -> e' = old).
Proof using Type.
  destruct old as [[a c d dt]|[a c d dt] fq], amount, category, description, date;
    eexists; (split; [reflexivity|]); repeat split; try done; discriminate.
Qed.

Lemma update_expense_run (s : state) (index : Z) (old e' : ExpenseObj)
    (amount : option pyval) (category description date : option string) :
  (0 <= index < Z.of_nat (length (expenses s)))%Z ->
  expenses s !! Z.to_nat index = Some old ->
  apply_updates old amount category description date = Ret e' ->
  update_expense index amount category description date s =
  (Ret tt,
   printed (_save_expenses (with_expenses s (<[Z.to_nat index := e']> (expenses s)))).2
     ExpenseUpdated).
Proof using Type.
  intros Hrange Hat Hnew.
  destruct (index_in_range (expenses s) index Hrange) as [Hguard _].
  unfold update_expense, bind at 1, get_state. rewrite Hguard, Hat.
  unfold bind at 1, lift. rewrite Hnew. unfold set_expenses, bind at 1.
  unfold bind at 1. rewrite save_expenses_run. reflexivity.
Qed.

(** X8.  For a valid index and a float (or no) new amount, [update_expense]
    returns and replaces the expense at that index by one that takes each
    given field and keeps every field that was left at [None], its class
    and its frequency included; the list keeps its length and every other
    position; with all four fields at [None] the list is unchanged. *)
Theorem update_expense_changes_given_fields
    (s : state) (index : Z) (amount : option float)
    (category description date : option string) :
  (0 <= index < Z.of_nat (length (expenses s)))%Z ->
  exists old e',
    expenses s !! Z.to_nat index = Some old
    /\ (update_expense index (VFloat <$> amount) category description date s).1 = Ret tt
    /\ expenses (update_expense index (VFloat <$> amount) category description date s).2
       = <[Z.to_nat index := e']> (expenses s)
    /\ get_amount e' = default (get_amount old) amount
    /\ get_category e' = default (get_category old) category
    /\ get_description e' = default (get_description old) description
    /\ get_date e' = default (get_date old) date
    /\ get_frequency e' = get_frequency old
    /\ (amount = None -> category = None -> description = None -> date = None ->
        expenses (update_expense index (VFloat <$> amount) category description date s).2
        = expenses s)
    /\ last (stdout (update_expense index (VFloat <$> amount) category description date s).2)
       = Some ExpenseUpdated.
Proof using Type.
  intros Hrange.
  destruct (index_in_range (expenses s) index Hrange) as [_ [old Hat]].
  destruct (apply_updates_fields old amount category description date)
    as (e' & Hnew & Ha & Hc & Hd & Hdt & Hf & Hsame).
  exists old, e'. split; [exact Hat|].
  rewrite (update_expense_run s index old e' _ _ _ _ Hrange Hat Hnew).
  cbn [fst snd printed expenses stdout].
  destruct (save_expenses_frame (with_expenses s (<[Z.to_nat index := e']> (expenses s))))
    as (Hsaved & _).
  rewrite Hsaved. cbn [with_expenses expenses].
  repeat split; try done; [|apply last_snoc].
  intros H1 H2 H3 H4. rewrite (Hsame H1 H2 H3 H4). by apply list_insert_id.
Qed.

(** X9.  [update_expense] changes nothing when it cannot update: for an
    index out of range it only prints the invalid-index message, and for a
    valid index with an amount other than [None] that [float] refuses it
    raises before any setter has run, leaving the expenses, the files and
    the console as they were, whatever the other arguments. *)
Theorem update_expense_refused
    (s : state) (index : Z) (amount : option pyval)
    (category description date : option string) :
  ((index < 0 \/ Z.of_nat (length (expenses s)) <= index)%Z ->
   update_expense index amount category description date s
   = (Ret tt, printed s InvalidExpenseIndex))
  /\ (forall v e,
        (0 <= index < Z.of_nat (length (expenses s)))%Z ->
        amount = Some v -> v <> VNone -> py_float v = Raise e ->
        update_expense index amount category description date s = (Raise e, s)).
Proof using Type.
  split.
  - intros Hout. unfold update_expense, bind at 1, get_state.
    by rewrite (index_out_of_range _ _ Hout).
  - intros v e Hrange -> Hvalue Hbad.
    destruct (index_in_range (expenses s) index Hrange) as [Hguard [old Hat]].
    unfold update_expense, bind at 1, get_state. rewrite Hguard, Hat.
    unfold bind, lift, apply_updates.
    destruct v; [done| | | |]; by rewrite Hbad.
Qed.

(** *** Categories *)

Lemma update_category_budget_run (s : state) (index : Z) (cat : Category) (limit : float) :
  (0 <= index < Z.of_nat (length (categories s)))%Z ->
  categories s !! Z.to_nat index = Some cat ->
  update_category_budget index (VFloat limit) s =
  (Ret tt,
   printed
     (_save_categories
        (with_categories s
           (<[Z.to_nat index := set_budget_limit cat limit]> (categories s)))).2
     BudgetUpdated).
Proof using Type.
  intros Hrange Hat.
  destruct (index_in_range (categories s) index Hrange) as [Hguard _].
  unfold update_category_budget, bind at 1, get_state. rewrite Hguard, Hat.
  unfold bind at 1, lift. cbn [py_float]. unfold set_categories, bind at 1.
  unfold bind at 1. rewrite save_categories_run. reflexivity.
Qed.

Lemma names_after_budget_update (cats : list Category) (i : nat) (cat : Category)
    (limit : float) :
  cats !! i = Some cat ->
  map get_name (<[i := set_budget_limit cat limit]> cats) = map get_name cats.
Proof using Type.
  intros Hat. rewrite list_fmap_insert. apply list_insert_id.
  by rewrite list_lookup_fmap, Hat.
Qed.

(** X10.  For a valid index and a float limit, [update_category_budget]
    gives the category at that index the new limit and keeps its name; no
    category is added, removed or renamed, and the expenses are untouched.
    For an index out of range it only prints the invalid-index message. *)
Theorem update_category_budget_sets_limit (s : state) (index : Z) (limit : float) :
  ((0 <= index < Z.of_nat (length (categories s)))%Z ->
   exists cat,
     categories s !! Z.to_nat index = Some cat
     /\ (update_category_budget index (VFloat limit) s).1 = Ret tt
     /\ categories (update_category_budget index (VFloat limit) s).2
        = <[Z.to_nat index := mkCategory (get_name cat) limit]> (categories s)
     /\ get_category_names (update_category_budget index (VFloat limit) s).2
        = get_category_names s
     /\ expenses (update_category_budget index (VFloat limit) s).2 = expenses s)
  /\ ((index < 0 \/ Z.of_nat (length (categories s)) <= index)%Z ->
      forall new_budget,
        update_category_budget index new_budget s
        = (Ret tt, printed s InvalidCategoryIndex)).
Proof using Type.
  split.
  - intros Hrange.
    destruct (index_in_range (categories s) index Hrange) as [_ [cat Hat]].
    exists cat. split; [exact Hat|].
    rewrite (update_category_budget_run s index cat limit Hrange Hat).
    cbn [fst snd printed categories expenses]. unfold get_category_names.
    destruct (save_categories_frame
                (with_categories s
                   (<[Z.to_nat index := set_budget_limit cat limit]> (categories s))))
      as (Hexps & Hcats & _).
    cbn [printed categories]. rewrite Hexps, Hcats. cbn [with_categories categories expenses].
    repeat split; try done. by apply names_after_budget_update.
  - intros Hout new_budget. unfold update_category_budget, bind at 1, get_state.
    by rewrite (index_out_of_range _ _ Hout).
Qed.

(** What [add_category] does with a name that no stored category shares. *)
Lemma add_category_fresh_run (s : state) (name : string) (budget_limit : pyval) :
  existsb (same_name name) (categories s) = false ->
  add_category name budget_limit s =
  match py_float budget_limit with
  | Ret limit =>
      (Ret tt,
       printed
         (_save_categories (with_categories s (categories s ++ [mkCategory name limit]))).2
         (CategoryAdded name))
  | Raise e => (Raise e, s)
  | Untyped => (Untyped, s)
  end.
Proof using Type.
  intros H. unfold add_category, bind at 1, get_state. rewrite H.
  unfold lift, Category_init, bind at 1.
  destruct (py_float budget_limit) as [limit|e|]; cbn [as_str obind]; [|done|done].
  unfold set_categories, bind at 1 2. rewrite save_categories_run. reflexivity.
Qed.

(** X11.  Case-insensitive uniqueness of category names is an invariant of
    the two category operations: if no two stored categories have the same
    lower-case name, the same holds after [add_category] and after
    [update_category_budget], whatever their arguments and outcome. *)
Theorem category_names_stay_distinct
    (s : state) (name : string) (budget_limit new_budget : pyval) (index : Z) :
  distinct_names (categories s) ->
  distinct_names (categories (add_category name budget_limit s).2)
  /\ distinct_names (categories (update_category_budget index new_budget s).2).
Proof using Type.
  unfold distinct_names. intros Hdistinct. split.
  - destruct (existsb (same_name name) (categories s)) eqn:E.
    + by rewrite add_category_duplicate_run.
    + rewrite add_category_fresh_run by done.
      destruct (py_float budget_limit) as [limit|e|]; [|done|done].
      cbn [snd printed categories]. rewrite categories_after_save.
      cbn [with_categories categories]. rewrite map_app. cbn [map].
      apply NoDup_app. split; [done|]. split; [|apply NoDup_singleton].
      intros x Hx Hin. apply list_elem_of_singleton in Hin. subst x.
      apply list_elem_of_fmap in Hx as (c & Hc & Hin).
      assert (existsb (same_name name) (categories s) = true)
        by (apply existsb_same_name; eauto).
      congruence.
  - unfold update_category_budget, bind at 1, get_state.
    destruct ((0 <=? index)%Z && (index <? Z.of_nat (length (categories s)))%Z); [|done].
    destruct (categories s !! Z.to_nat index) as [cat|] eqn:Hat; [|done].
    unfold bind at 1, lift.
    destruct (py_float new_budget) as [limit|e|]; [|done|done].
    unfold set_categories, bind at 1. unfold bind at 1. rewrite save_categories_run.
    assert (Hsame : map (fun c => str_lower (get_name c))
                      (<[Z.to_nat index := set_budget_limit cat limit]> (categories s))
                    = map (fun c => str_lower (get_name c)) (categories s)).
    { rewrite list_fmap_insert. apply list_insert_id. by rewrite list_lookup_fmap, Hat. }
    cbn [snd]. destruct (bool_decide _);
      cbn [print printed with_file with_categories categories snd]; by rewrite Hsame.
Qed.

(** *** Summaries and reports *)

(** X12.  [get_category_summary] has one entry per category that occurs in
    the ledger and none for any other name: looking a name up gives the
    amounts of [get_expenses_by_category] for that name added up in ledger
    order when that list is non-empty, and nothing when it is empty; no key
    occurs twice, and [get_expenses_by_category] keeps the ledger order. *)
Theorem category_summary_matches_filter (s : state) (cat : string) :
  NoDup (map fst (get_category_summary s))
  /\ dict_get (get_category_summary s) cat
     = (if decide (get_expenses_by_category s cat = []) then None
        else Some (sum_left (map get_amount (get_expenses_by_category s cat))))
  /\ sublist (get_expenses_by_category s cat) (expenses s)
  /\ (forall e, e ∈ get_expenses_by_category s cat <->
                e ∈ expenses s /\ get_category e = cat).
Proof using Type.
  unfold get_category_summary, get_expenses_by_category.
  rewrite category_totals_spec. split; [|split; [|split]].
  - rewrite map_map. cbn [fst]. rewrite map_id. apply NoDup_first_occurrences.
  - rewrite dict_get_map.
    destruct (decide (cat ∈ first_occurrences (map get_category (expenses s)))) as [Hin|Hin];
      destruct (decide (filter (fun exp => get_category exp = cat) (expenses s) = []))
        as [Hnil|Hnil]; try done.
    + apply elem_of_first_occurrences, list_elem_of_fmap in Hin as (e & -> & He).
      exfalso. apply (filter_nil_not_elem_of _ _ e Hnil); done.
    + exfalso. apply Hnil. apply filter_none. intros e He Hc. apply Hin.
      apply elem_of_first_occurrences. rewrite <- Hc. by apply list_elem_of_fmap_2.
  - apply sublist_filter.
  - intros e. rewrite list_elem_of_filter. split; intros [? ?]; by split.
Qed.

Lemma filter_disjoint_split {A} (P Q : A -> Prop)
    `{!forall x, Decision (P x)} `{!forall x, Decision (Q x)} (l : list A) :
  (forall x, P x -> Q x -> False) ->
  filter (fun x => P x \/ Q x) l ≡ₚ (filter P l ++ filter Q l)%list.
Proof using Type.
  intros Hdisjoint. induction l as [|a l IH]; [done|].
  destruct (decide (P a)) as [HP|HP]; destruct (decide (Q a)) as [HQ|HQ].
  - destruct (Hdisjoint a HP HQ).
  - rewrite (filter_cons_True (fun x => P x \/ Q x)) by (by left).
    rewrite (filter_cons_True P), (filter_cons_False Q) by done.
    cbn [app]. by rewrite IH.
  - rewrite (filter_cons_True (fun x => P x \/ Q x)) by (by right).
    rewrite (filter_cons_False P), (filter_cons_True Q) by done.
    rewrite IH. apply Permutation_middle.
  - rewrite (filter_cons_False (fun x => P x \/ Q x)) by (intros [?|?]; done).
    by rewrite (filter_cons_False P), (filter_cons_False Q).
Qed.

Lemma filter_all {A} (P : A -> Prop) `{!forall x, Decision (P x)} (l : list A) :
  (forall x, x ∈ l -> P x) -> filter P l = l.
Proof using Type.
  induction l as [|a l IH]; intros Hall; [done|].
  rewrite filter_cons_True by (apply Hall; left).
  f_equal. apply IH. intros x Hx. apply Hall. by right.
Qed.

Lemma category_blocks_cover (exps : list ExpenseObj) (cats : list Category) :
  NoDup (map get_name cats) ->
  concat (map (fun c => cat_expenses exps (get_name c)) cats)
  ≡ₚ filter (fun e => get_category e ∈ map get_name cats) exps.
Proof using Type.
  induction cats as [|c cats IH]; intros Hnd.
  - cbn [map concat]. symmetry. rewrite filter_none; [done|].
    intros e _ Hin. by apply elem_of_nil in Hin.
  - cbn [map concat] in *. apply NoDup_cons in Hnd as [Hc Hnd].
    rewrite (IH Hnd). unfold cat_expenses.
    rewrite <- (filter_disjoint_split (fun e => get_category e = get_name c)
                  (fun e => get_category e ∈ map get_name cats)).
    + erewrite list_filter_iff; [reflexivity|]. intros e. cbn beta. by rewrite elem_of_cons.
    + intros e He Hin. apply Hc. by rewrite <- He.
Qed.

(** X13.  When the stored category names are pairwise different and every
    expense carries one of them, the blocks of the category report split the
    ledger: the expenses selected by the blocks, one block after the other,
    are a rearrangement of the expense list, so each expense is counted in
    exactly one block. *)
Theorem category_blocks_partition (exps : list ExpenseObj) (cats : list Category) :
  NoDup (map get_name cats) ->
  (forall e, e ∈ exps -> get_category e ∈ map get_name cats) ->
  concat (map (fun c => cat_expenses exps (get_name c)) cats) ≡ₚ exps
  /\ length (concat (map (fun c => cat_expenses exps (get_name c)) cats)) = length exps.
Proof using Type.
  intros Hnd Hknown.
  assert (Hperm : concat (map (fun c => cat_expenses exps (get_name c)) cats) ≡ₚ exps).
  { rewrite (category_blocks_cover exps cats Hnd). by rewrite filter_all. }
  split; [exact Hperm | by rewrite Hperm].
Qed.

(** X14.  A month key that no expense date starts with (an empty ledger
    included) gives a monthly report with total 0 and no breakdown line; and
    an empty month key stands for the current month, exactly like [None]. *)
Theorem monthly_report_without_matches (exps : list ExpenseObj) (month : string) :
  month <> "" ->
  (forall e, e ∈ exps -> startswith (get_date e) month = false) ->
  MonthlyReport_generate_report (MonthlyReport_init exps (Some month))
  = [LMonthlyTitle month; LRule; LTotalExpenses fzero; LBreakdownTitle]
  /\ MonthlyReport_init exps (Some "") = MonthlyReport_init exps None
  /\ mr_month (MonthlyReport_init exps None) = this_month.
Proof using py_sum_nil.
  intros Hmonth Hnone. split; [|done].
  unfold MonthlyReport_generate_report, monthly_expenses, MonthlyReport_init.
  destruct month as [|c month]; [done|]. cbn [truthy mr_month mr_expenses].
  rewrite filter_none by (intros e He; rewrite (Hnone e He); discriminate).
  cbn [map]. by rewrite py_sum_nil.
Qed.

(** *** Dates of loaded expenses *)

Lemma Expense_init_dated (amount category description date : pyval) (b : Expense) :
  today <> "" ->
  Expense_init amount category description date = Ret b -> _date b <> "".
Proof using Type.
  intros Htoday. unfold Expense_init.
  destruct (py_float amount) as [a|e|]; [|done|done].
  destruct category; try done. destruct description; try done. cbn [obind as_str].
  destruct (py_truthy date) eqn:Htruthy.
  - destruct date as [| | | |t]; try done. cbn [as_str obind]. intros [= <-].
    cbn. by destruct t.
  - cbn [as_str obind]. by intros [= <-].
Qed.

Lemma expense_from_dict_dated (d : pydict) (o : ExpenseObj) :
  today <> "" -> expense_from_dict d = Ret o -> dated o.
Proof using Type.
  intros Htoday.
  assert (Hregular : Expense_from_dict d = Ret o -> dated o).
  { unfold Expense_from_dict, getitem.
    destruct (d !! "amount") as [amount|]; [|done].
    destruct (d !! "category") as [category|]; [|done].
    destruct (d !! "description") as [description|]; [|done].
    destruct (d !! "date") as [date|]; [|done]. cbn [obind].
    destruct (Expense_init amount category description date) as [b|e|] eqn:Hinit;
      [|done|done].
    cbn [obind]. intros [= <-]. by apply (Expense_init_dated _ _ _ _ _ Htoday Hinit). }
  assert (Hrecurring : RecurringExpense_from_dict d = Ret o -> dated o).
  { unfold RecurringExpense_from_dict, RecurringExpense_init, getitem.
    destruct (d !! "amount") as [amount|]; [|done].
    destruct (d !! "category") as [category|]; [|done].
    destruct (d !! "description") as [description|]; [|done].
    destruct (d !! "date") as [date|]; [|done]. cbn [obind].
    destruct (Expense_init amount category description date) as [b|e|] eqn:Hinit;
      [|done|done].
    cbn [obind]. destruct (as_str _) as [fq|e|]; [|done|done].
    cbn [obind]. intros [= <-]. by apply (Expense_init_dated _ _ _ _ _ Htoday Hinit). }
  unfold expense_from_dict.
  destruct (d !! "type") as [[| | | |tag]|]; try done.
  by destruct (String.eqb tag "recurring").
Qed.

(** The loop of [_load_expenses] only appends dated objects, and touches
    nothing but the expense list. *)
Lemma for_each_load_dated (items : list json_item) (s : state) :
  today <> "" ->
  Forall dated (expenses s) ->
  Forall dated (expenses (for_each load_expense_item items s).2)
  /\ exists l, (for_each load_expense_item items s).2 = with_expenses s l.
Proof using Type.
  intros Htoday. revert s. induction items as [|item items IH]; intros s Hdated.
  - split; [done|]. exists (expenses s). by destruct s.
  - assert (Hcons : for_each load_expense_item (item :: items) s
                    = match load_expense_item item s with
                      | (Ret _, s') => for_each load_expense_item items s'
                      | (Raise x, s') => (Raise x, s')
                      | (Untyped, s') => (Untyped, s')
                      end) by reflexivity.
    rewrite Hcons. clear Hcons.
    destruct item as [d|].
    + rewrite load_expense_item_run.
      destruct (expense_from_dict d) as [e|x|] eqn:Hd.
      * destruct (IH (with_expenses s (expenses s ++ [e]))) as [Hall [l Hl]].
        { cbn [with_expenses expenses]. apply Forall_app. split; [done|].
          apply Forall_singleton. by apply (expense_from_dict_dated d). }
        cbv beta iota. split; [exact Hall|]. exists l. by rewrite Hl.
      * split; [done|]. exists (expenses s). by destruct s.
      * split; [done|]. exists (expenses s). by destruct s.
    + split; [done|]. exists (expenses s). by destruct s.
Qed.

Lemma load_expenses_dated (s : state) :
  today <> "" ->
  exists o s2,
    _load_expenses s = (o, s2)
    /\ Forall dated (expenses s2)
    /\ data_file s2 = data_file s
    /\ readonly s2 = readonly s.
Proof using Type.
  intros Htoday.
  assert (Hhandler : forall (e : exn) (s1 : state),
            data_file s1 = data_file s -> readonly s1 = readonly s ->
            exists o s2,
              (print (ErrorLoadingExpenses e) ;;; set_expenses [] ;;;
               write_json (data_file s) (DArray [])) s1 = (o, s2)
              /\ Forall dated (expenses s2)
              /\ data_file s2 = data_file s
              /\ readonly s2 = readonly s).
  { intros e s1 H1 H2. unfold bind, print, set_expenses, write_json.
    cbn [with_expenses printed readonly].
    destruct (bool_decide (data_file s ∈ readonly s1)); eexists _, _;
      (split; [reflexivity|]); by repeat split. }
  unfold _load_expenses, bind at 1, get_state, try_except.
  unfold bind at 1, read_json.
  destruct (fs s !! data_file s) as [[|doc]|]; [by apply Hhandler | | by apply Hhandler].
  unfold bind at 1, set_expenses. unfold bind at 1, lift.
  destruct (iterate doc) as [items|e|]; [| by apply Hhandler |].
  - unfold bind at 1.
    destruct (for_each_load_dated items (with_expenses s []) Htoday) as [Hall [l Hl]];
      [constructor|].
    destruct (for_each load_expense_item items (with_expenses s [])) as [[[]|e|] s1];
      cbn [fst snd] in *; subst s1.
    + eexists _, _. split; [reflexivity|]. by repeat split.
    + by apply Hhandler.
    + eexists _, _. split; [reflexivity|]. by repeat split.
  - eexists _, _. split; [reflexivity|]. repeat split. constructor.
Qed.

(** X15.  When the current date is not the empty string, every expense
    that [_load_expenses] leaves in the ledger has a non-empty date, whatever
    the store holds; so the ledger it leaves is a fixed point of saving and
    loading: with a writable expense store, saving it and loading again gives
    the same list. *)
Theorem loaded_ledger_is_stable (s : state) :
  today <> "" ->
  data_file s ∉ readonly s ->
  Forall dated (expenses (_load_expenses s).2)
  /\ expenses (_load_expenses (_save_expenses (_load_expenses s).2).2).2
     = expenses (_load_expenses s).2.
Proof using Type.
  intros Htoday Hw.
  destruct (load_expenses_dated s Htoday) as (o & s1 & Hrun & Hall & Hdf & Hro).
  rewrite Hrun. cbn [snd]. split; [exact Hall|].
  rewrite save_expenses_run, bool_decide_eq_false_2 by (by rewrite Hdf, Hro).
  cbn [snd].
  rewrite (load_expenses_saved _ (expenses s1))
    by (cbn [printed with_file fs data_file]; apply lookup_insert_eq).
  cbn [snd printed with_expenses expenses]. by apply reload_dated.
Qed.

(** *** The prompts *)

Lemma ui_choose_category_known (cats : list Category) (typed : string) :
  match ui_choose_category cats typed with
  | Ret (name, _) =>
      (name ∈ map get_name cats \/ name = "Other")
      /\ (str_isdigit (str_strip typed) = false ->
          str_strip typed ∈ map get_name cats -> name = str_strip typed)
  | Raise e => e = ValueError
  | Untyped => False
  end.
Proof using Type.
  unfold ui_choose_category.
  destruct (str_isdigit (str_strip typed)).
  - destruct (int_of_str (str_strip typed)) as [n|]; [|done].
    destruct ((0 <=? n - 1)%Z && (n - 1 <? Z.of_nat (length cats))%Z) eqn:Hguard.
    + apply andb_true_iff in Hguard as [Hlo%Z.leb_le Hhi%Z.ltb_lt].
      destruct (cats !! Z.to_nat (n - 1)) as [c|] eqn:Hat.
      * split; [|done]. left. apply list_elem_of_fmap_2.
        by apply (list_elem_of_lookup_2 _ (Z.to_nat (n - 1))).
      * apply lookup_ge_None in Hat. lia.
    + split; [by right | done].
  - destruct (bool_decide (str_strip typed ∈ map get_name cats)) eqn:Hin.
    + apply bool_decide_eq_true in Hin. split; [by left | done].
    + apply bool_decide_eq_false in Hin. split; [by right | done].
Qed.

(** X16.  The object [add_expense_ui] builds: the prompt can only fail with
    [ValueError] (an amount that [float] refuses, or a digit string that
    [int] refuses); otherwise it builds a regular expense whose amount is the
    parsed amount, whose category is a stored category name or "Other" (a
    typed stored name that is not a digit string is taken as it is), whose
    description is the typed one and whose date is the typed date, or the
    current date when none was typed. *)
Theorem ui_new_expense_outcome
    (s : state) (amount_text cat_text description date_input : string) :
  match ui_new_expense s amount_text cat_text description date_input with
  | Ret o =>
      discriminant o = "regular"
      /\ float_of_str amount_text = Some (get_amount o)
      /\ (get_category o ∈ get_category_names s \/ get_category o = "Other")
      /\ (str_isdigit (str_strip cat_text) = false ->
          str_strip cat_text ∈ get_category_names s ->
          get_category o = str_strip cat_text)
      /\ get_description o = description
      /\ get_date o = (if truthy date_input then date_input else today)
  | Raise e => e = ValueError
  | Untyped => False
  end.
Proof using Type.
  unfold ui_new_expense, get_category_names, get_categories.
  destruct (float_of_str amount_text) as [amount|]; [|done].
  pose proof (ui_choose_category_known (categories s) cat_text) as Hchoice.
  destruct (ui_choose_category (categories s) cat_text) as [[name notice]|e|];
    [|done|done].
  destruct Hchoice as [Hknown Hsame]. cbn [obind fst].
  unfold Expense_init. cbn [py_float obind as_str py_truthy].
  destruct date_input as [|c date_input]; cbn [truthy].
  - destruct today; cbn [truthy as_str obind]; by repeat split.
  - cbn [as_str obind]. by repeat split.
Qed.

Lemma ui_edit_amount_cases (new_amount : string) :
  (exists amount : option float, ui_edit_amount new_amount = Ret (VFloat <$> amount)
      /\ (str_strip new_amount = "" -> amount = None))
  \/ ui_edit_amount new_amount = Raise ValueError.
Proof using Type.
  unfold ui_edit_amount. destruct (str_strip new_amount) as [|c t]; cbn [truthy].
  - left. by exists None.
  - destruct (float_of_str new_amount) as [f|]; [left; by exists (Some f) | by right].
Qed.

Lemma update_expense_dated (s : state) (index : Z) (amount : option float)
    (category description date : option string) :
  date <> Some "" ->
  Forall dated (expenses s) ->
  Forall dated
    (expenses (update_expense index (VFloat <$> amount) category description date s).2)
  /\ (amount = None -> category = None -> description = None -> date = None ->
      expenses (update_expense index (VFloat <$> amount) category description date s).2
      = expenses s).
Proof using Type.
  intros Hdate Hall.
  destruct (decide (0 <= index < Z.of_nat (length (expenses s)))%Z) as [Hrange|Hout].
  - destruct (index_in_range (expenses s) index Hrange) as [_ [old Hat]].
    destruct (apply_updates_fields old amount category description date)
      as (e' & Hnew & _ & _ & _ & Hdt & _ & Hsame).
    rewrite (update_expense_run s index old e' _ _ _ _ Hrange Hat Hnew).
    cbn [snd printed expenses].
    destruct (save_expenses_frame (with_expenses s (<[Z.to_nat index := e']> (expenses s))))
      as (Hsaved & _).
    rewrite Hsaved. cbn [with_expenses expenses]. split.
    + apply Forall_insert; [done|]. unfold dated. rewrite Hdt.
      destruct date as [d|]; cbn [default from_option id].
      * intros Hd. apply Hdate. by rewrite Hd.
      * by apply (Forall_lookup_1 _ _ _ _ Hall Hat).
    + intros H1 H2 H3 H4. rewrite (Hsame H1 H2 H3 H4). by apply list_insert_id.
  - assert (Hrun : update_expense index (VFloat <$> amount) category description date s
                   = (Ret tt, printed s InvalidExpenseIndex)).
    { unfold update_expense, bind at 1, get_state.
      by rewrite index_out_of_range by lia. }
    rewrite Hrun. done.
Qed.

Lemma ui_blank_to_none_cases (text : string) :
  str_strip "" = "" ->
  ui_blank_to_none text <> Some ""
  /\ (str_strip text = "" -> ui_blank_to_none text = None).
Proof using Type.
  intros Hstrip. unfold ui_blank_to_none. split.
  - destruct text as [|c t]; [by rewrite Hstrip|].
    by destruct (truthy (str_strip (String c t))).
  - by intros ->.
Qed.

(** X17.  Editing through [edit_expense_ui] keeps every date non-empty: when
    stripping the empty string gives the empty string and all expenses of the
    ledger have non-empty dates, they still have after the conversions of the
    prompt and its call of [update_expense], whatever was typed; and answers
    that are all blank leave the expense list as it was. *)
Theorem ui_update_keeps_dates
    (s : state) (index : Z) (new_amount new_category new_description new_date : string) :
  str_strip "" = "" ->
  Forall dated (expenses s) ->
  Forall dated
    (expenses (ui_update_expense index new_amount new_category new_description new_date s).2)
  /\ (str_strip new_amount = "" -> str_strip new_category = "" ->
      str_strip new_description = "" -> str_strip new_date = "" ->
      expenses (ui_update_expense index new_amount new_category new_description new_date s).2
      = expenses s).
Proof using Type.
  intros Hstrip Hall. unfold ui_update_expense, bind at 1, lift.
  destruct (ui_blank_to_none_cases new_date Hstrip) as [Hdate Hblank_date].
  destruct (ui_blank_to_none_cases new_category Hstrip) as [_ Hblank_category].
  destruct (ui_blank_to_none_cases new_description Hstrip) as [_ Hblank_description].
  destruct (ui_edit_amount_cases new_amount) as [(amount & -> & Hblank_amount)| ->];
    [|done].
  destruct (update_expense_dated s index amount (ui_blank_to_none new_category)
              (ui_blank_to_none new_description) (ui_blank_to_none new_date) Hdate Hall)
    as [Hkept Hsame].
  split; [exact Hkept|]. intros H1 H2 H3 H4. apply Hsame; auto.
Qed.

(** *** Records with missing keys *)

(** X18.  [from_dict] on a record that lacks one of the keys it subscripts
    raises [KeyError] for the first missing one, in the order amount,
    category, description, date (name, budget_limit for a category), whatever
    else the record holds; the keys "type" and "frequency" may be missing: a
    record whose type is not the string "recurring" loads as a regular
    expense, and a recurring record without frequency gets "monthly". *)
Theorem from_dict_missing_keys (d : pydict) :
  (forall k, first_missing ["amount"; "category"; "description"; "date"] d = Some k ->
             expense_from_dict d = Raise (KeyError k))
  /\ (forall k, first_missing ["name"; "budget_limit"] d = Some k ->
                Category_from_dict d = Raise (KeyError k))
  /\ (forall o, expense_from_dict d = Ret o ->
        (discriminant o = "recurring" <-> d !! "type" = Some (VStr "recurring"))
        /\ (d !! "type" = Some (VStr "recurring") -> d !! "frequency" = None ->
            get_frequency o = Some "monthly")).
Proof using Type.
  split; [|split].
  - intros k Hk.
    assert (Hregular : Expense_from_dict d = Raise (KeyError k)).
    { unfold Expense_from_dict, getitem. cbn [first_missing] in Hk.
      destruct (d !! "amount");
        [rewrite bool_decide_eq_true_2 in Hk by eauto
        | rewrite bool_decide_eq_false_2 in Hk by (by intros [? ?]); by simplify_eq].
      destruct (d !! "category");
        [rewrite bool_decide_eq_true_2 in Hk by eauto
        | rewrite bool_decide_eq_false_2 in Hk by (by intros [? ?]); by simplify_eq].
      destruct (d !! "description");
        [rewrite bool_decide_eq_true_2 in Hk by eauto
        | rewrite bool_decide_eq_false_2 in Hk by (by intros [? ?]); by simplify_eq].
      destruct (d !! "date");
        [rewrite bool_decide_eq_true_2 in Hk by eauto; done
        | rewrite bool_decide_eq_false_2 in Hk by (by intros [? ?]); by simplify_eq]. }
    assert (Hrecurring : RecurringExpense_from_dict d = Raise (KeyError k)).
    { revert Hregular.
      unfold Expense_from_dict, RecurringExpense_from_dict, RecurringExpense_init, getitem.
      destruct (d !! "amount"); [|done]. destruct (d !! "category"); [|done].
      destruct (d !! "description"); [|done]. destruct (d !! "date"); [|done].
      cbn [obind]. destruct (Expense_init _ _ _ _); cbn [obind]; done. }
    unfold expense_from_dict.
    destruct (d !! "type") as [[| | | |tag]|]; try done.
    by destruct (String.eqb tag "recurring").
  - intros k Hk. unfold Category_from_dict, getitem. cbn [first_missing] in Hk.
    destruct (d !! "name");
      [rewrite bool_decide_eq_true_2 in Hk by eauto
      | rewrite bool_decide_eq_false_2 in Hk by (by intros [? ?]); by simplify_eq].
    destruct (d !! "budget_limit");
      [rewrite bool_decide_eq_true_2 in Hk by eauto; done
      | rewrite bool_decide_eq_false_2 in Hk by (by intros [? ?]); by simplify_eq].
  - intros o.
    assert (Hregular : Expense_from_dict d = Ret o -> discriminant o = "regular").
    { unfold Expense_from_dict.
      destruct (getitem d "amount"); [|done|done].
      destruct (getitem d "category"); [|done|done].
      destruct (getitem d "description"); [|done|done].
      destruct (getitem d "date"); [|done|done]. cbn [obind].
      destruct (Expense_init _ _ _ _); [|done|done]. cbn [obind]. by intros [= <-]. }
    assert (Hrecurring : RecurringExpense_from_dict d = Ret o ->
              discriminant o = "recurring"
              /\ (d !! "frequency" = None -> get_frequency o = Some "monthly")).
    { unfold RecurringExpense_from_dict, RecurringExpense_init.
      destruct (getitem d "amount"); [|done|done].
      destruct (getitem d "category"); [|done|done].
      destruct (getitem d "description"); [|done|done].
      destruct (getitem d "date"); [|done|done]. cbn [obind].
      destruct (Expense_init _ _ _ _); [|done|done]. cbn [obind].
      destruct (d !! "frequency") as [fq|]; cbn [default from_option id].
      - destruct (as_str fq); [|done|done]. cbn [obind]. by intros [= <-].
      - cbn [as_str obind]. by intros [= <-]. }
    assert (Hno : forall v : option pyval, v <> Some (VStr "recurring") ->
              Expense_from_dict d = Ret o ->
              (discriminant o = "recurring" <-> v = Some (VStr "recurring"))
              /\ (v = Some (VStr "recurring") -> d !! "frequency" = None ->
                  get_frequency o = Some "monthly")).
    { intros v Hv Ho. rewrite (Hregular Ho). by repeat split. }
    unfold expense_from_dict.
    destruct (d !! "type") as [[| | | |tag]|] eqn:Htype; try (by apply Hno).
    destruct (String.eqb tag "recurring") eqn:Htag.
    + apply String.eqb_eq in Htag. subst tag. intros Ho.
      destruct (Hrecurring Ho) as [H1 H2]. by repeat split.
    + apply String.eqb_neq in Htag. apply Hno. congruence.
Qed.

(** *** Creating the files *)

Lemma insert_keeps_existing (files : gmap string file_content) (created path : string)
    (new content : file_content) :
  ~ is_Some (files !! created) ->
  files !! path = Some content -> <[created := new]> files !! path = Some content.
Proof using Type.
  intros Hnew Hpath. rewrite lookup_insert_ne; [done|].
  intros <-. apply Hnew. eauto.
Qed.

(** X19.  [_initialize_files] never overwrites: every file that exists keeps
    its content, whatever it is, and no path other than the two stores is
    created; when the call returns, both stores exist.  It leaves the two
    lists of the manager alone. *)
Theorem initialize_files_keeps_existing (s : state) :
  (forall path content,
      fs s !! path = Some content -> fs (_initialize_files s).2 !! path = Some content)
  /\ (forall path, path <> data_file s -> path <> categories_file s ->
                   fs (_initialize_files s).2 !! path = fs s !! path)
  /\ ((_initialize_files s).1 = Ret tt ->
      is_Some (fs (_initialize_files s).2 !! data_file s)
      /\ is_Some (fs (_initialize_files s).2 !! categories_file s))
  /\ expenses (_initialize_files s).2 = expenses s
  /\ categories (_initialize_files s).2 = categories s.
Proof using Type.
  unfold _initialize_files. run.
  destruct (bool_decide (is_Some (fs s !! data_file s))) eqn:E1; simpl.
  - apply bool_decide_eq_true in E1.
    destruct (bool_decide (is_Some (fs s !! categories_file s))) eqn:E2; simpl.
    + apply bool_decide_eq_true in E2. by repeat split.
    + apply bool_decide_eq_false in E2.
      destruct (bool_decide (categories_file s ∈ readonly s)); simpl; [by repeat split|].
      repeat split; try done.
      * intros path content. by apply insert_keeps_existing.
      * intros path _ Hne. by rewrite lookup_insert_ne.
      * destruct E1 as [content E1]. rewrite (insert_keeps_existing _ _ _ _ content); eauto.
      * rewrite lookup_insert_eq. eauto.
  - apply bool_decide_eq_false in E1.
    destruct (bool_decide (data_file s ∈ readonly s)); simpl; [by repeat split|].
    destruct (bool_decide (is_Some (<[data_file s := Parsed (DArray [])]> (fs s)
                                      !! categories_file s))) eqn:E2; simpl.
    + apply bool_decide_eq_true in E2. repeat split; try done.
      * intros path content. by apply insert_keeps_existing.
      * intros path Hne _. by rewrite lookup_insert_ne.
      * rewrite lookup_insert_eq. eauto.
    + apply bool_decide_eq_false in E2.
      destruct (bool_decide (categories_file s ∈ readonly s)); simpl.
      * repeat split; try done.
        -- intros path content. by apply insert_keeps_existing.
        -- intros path Hne _. by rewrite lookup_insert_ne.
      * repeat split; try done.
        -- intros path content Hpath. apply insert_keeps_existing; [done|].
           by apply insert_keeps_existing.
        -- intros path H1 H2. by rewrite !lookup_insert_ne.
        -- destruct (decide (data_file s = categories_file s)) as [Heq|Hne].
           ++ exfalso. apply E2. rewrite <- Heq, lookup_insert_eq. eauto.
           ++ rewrite lookup_insert_ne by congruence. rewrite lookup_insert_eq. eauto.
        -- rewrite lookup_insert_eq. eauto.
Qed.

(** *** What each operation leaves alone *)

Create HintDb frame.

Lemma expense_frame_refl (s : state) : only_expense_store_changed s s.
Proof using Type. by repeat split. Qed.

Lemma expense_frame_printed (s s' : state) (m : msg) :
  only_expense_store_changed s s' -> only_expense_store_changed s (printed s' m).
Proof using Type. intros (H1 & H2 & H3 & H4 & H5). by repeat split. Qed.

Lemma expense_frame_with_expenses (s s' : state) (l : list ExpenseObj) :
  only_expense_store_changed s s' -> only_expense_store_changed s (with_expenses s' l).
Proof using Type. intros (H1 & H2 & H3 & H4 & H5). by repeat split. Qed.

Lemma expense_frame_with_file (s s' : state) (path : string) (content : file_content) :
  only_expense_store_changed s s' -> path = data_file s ->
  only_expense_store_changed s (with_file s' path content).
Proof using Type.
  intros (H1 & H2 & H3 & H4 & H5) ->. repeat split; try done.
  intros path Hne. cbn [with_file fs]. rewrite lookup_insert_ne by done. by apply H5.
Qed.

Lemma expense_frame_save (s s' : state) :
  only_expense_store_changed s s' -> only_expense_store_changed s (_save_expenses s').2.
Proof using Type.
  intros H. rewrite save_expenses_run. cbn [snd].
  destruct (bool_decide (data_file s' ∈ readonly s')).
  - by apply expense_frame_printed.
  - apply expense_frame_printed, expense_frame_with_file; [done|]. apply H.
Qed.

Lemma categories_frame_refl (s : state) : only_categories_store_changed s s.
Proof using Type. by repeat split. Qed.

Lemma categories_frame_printed (s s' : state) (m : msg) :
  only_categories_store_changed s s' -> only_categories_store_changed s (printed s' m).
Proof using Type. intros (H1 & H2 & H3 & H4 & H5). by repeat split. Qed.

Lemma categories_frame_with_categories (s s' : state) (l : list Category) :
  only_categories_store_changed s s' ->
  only_categories_store_changed s (with_categories s' l).
Proof using Type. intros (H1 & H2 & H3 & H4 & H5). by repeat split. Qed.

Lemma categories_frame_with_file (s s' : state) (path : string) (content : file_content) :
  only_categories_store_changed s s' -> path = categories_file s ->
  only_categories_store_changed s (with_file s' path content).
Proof using Type.
  intros (H1 & H2 & H3 & H4 & H5) ->. repeat split; try done.
  intros path Hne. cbn [with_file fs]. rewrite lookup_insert_ne by done. by apply H5.
Qed.

Lemma categories_frame_save (s s' : state) :
  only_categories_store_changed s s' ->
  only_categories_store_changed s (_save_categories s').2.
Proof using Type.
  intros H. rewrite save_categories_run. cbn [snd].
  destruct (bool_decide (categories_file s' ∈ readonly s')).
  - by apply categories_frame_printed.
  - apply categories_frame_printed, categories_frame_with_file; [done|]. apply H.
Qed.

#[local] Hint Resolve expense_frame_refl expense_frame_printed expense_frame_with_expenses
  expense_frame_with_file expense_frame_save categories_frame_refl categories_frame_printed
  categories_frame_with_categories categories_frame_with_file categories_frame_save : frame.

Lemma for_each_load_state (items : list json_item) (s : state) :
  exists l, (for_each load_expense_item items s).2 = with_expenses s l.
Proof using Type.
  revert s. induction items as [|item items IH]; intros s.
  - exists (expenses s). by destruct s.
  - assert (Hcons : for_each load_expense_item (item :: items) s
                    = match load_expense_item item s with
                      | (Ret _, s') => for_each load_expense_item items s'
                      | (Raise x, s') => (Raise x, s')
                      | (Untyped, s') => (Untyped, s')
                      end) by reflexivity.
    rewrite Hcons. clear Hcons.
    destruct item as [d|]; [|exists (expenses s); by destruct s].
    rewrite load_expense_item_run.
    destruct (expense_from_dict d) as [e|x|]; try (exists (expenses s); by destruct s).
    destruct (IH (with_expenses s (expenses s ++ [e]))) as [l Hl].
    exists l. by rewrite Hl.
Qed.

Lemma load_expenses_isolated (s : state) :
  exists o s2, _load_expenses s = (o, s2) /\ only_expense_store_changed s s2.
Proof using Type.
  assert (Hhandler : forall (e : exn) (s1 : state),
            only_expense_store_changed s s1 ->
            exists o s2,
              (print (ErrorLoadingExpenses e) ;;; set_expenses [] ;;;
               write_json (data_file s) (DArray [])) s1 = (o, s2)
              /\ only_expense_store_changed s s2).
  { intros e s1 H1. unfold bind, print, set_expenses, write_json.
    cbn [with_expenses printed readonly].
    destruct (bool_decide (data_file s ∈ readonly s1)); eexists _, _;
      (split; [reflexivity|]); auto with frame. }
  unfold _load_expenses, bind at 1, get_state, try_except.
  unfold bind at 1, read_json.
  destruct (fs s !! data_file s) as [[|doc]|]; [apply Hhandler | | apply Hhandler];
    auto with frame.
  unfold bind at 1, set_expenses. unfold bind at 1, lift.
  destruct (iterate doc) as [items|e|]; [| apply Hhandler; auto with frame |].
  - unfold bind at 1.
    destruct (for_each_load_state items (with_expenses s [])) as [l Hl].
    destruct (for_each load_expense_item items (with_expenses s [])) as [[[]|e|] s1];
      cbn [fst snd] in *; subst s1.
    + eexists _, _. split; [reflexivity|]. cbn [with_expenses expenses]. auto with frame.
    + apply Hhandler. auto with frame.
    + eexists _, _. split; [reflexivity|]. auto with frame.
  - eexists _, _. split; [reflexivity|]. auto with frame.
Qed.

(** X20.  The expense operations touch the expense side only: after
    [add_expense], [delete_expense], [update_expense] or [_load_expenses],
    whatever the arguments and the outcome, the categories are the same
    list, the paths and permissions are unchanged, and every file other than
    the expense store has the content it had. *)
Theorem expense_operations_isolated
    (s : state) (expense : ExpenseObj) (index : Z) (amount : option pyval)
    (category description date : option string) :
  only_expense_store_changed s (add_expense expense s).2
  /\ only_expense_store_changed s (delete_expense index s).2
  /\ only_expense_store_changed s
       (update_expense index amount category description date s).2
  /\ only_expense_store_changed s (_load_expenses s).2.
Proof using Type.
  split; [|split; [|split]].
  - rewrite add_expense_run. cbn [snd]. auto with frame.
  - destruct (decide (0 <= index < Z.of_nat (length (expenses s)))%Z) as [Hrange|Hout].
    + destruct (index_in_range (expenses s) index Hrange) as [_ [deleted Hat]].
      rewrite (delete_expense_run s index deleted Hrange Hat). cbn [snd]. auto with frame.
    + unfold delete_expense, bind at 1, get_state.
      rewrite index_out_of_range by lia. cbn. auto with frame.
  - unfold update_expense, bind at 1, get_state.
    destruct ((0 <=? index)%Z && (index <? Z.of_nat (length (expenses s)))%Z);
      [|cbn; auto with frame].
    destruct (expenses s !! Z.to_nat index) as [old|]; [|cbn; auto with frame].
    unfold bind at 1, lift.
    destruct (apply_updates old amount category description date) as [e'|e|];
      [|cbn; auto with frame|cbn; auto with frame].
    unfold set_expenses, bind at 1. unfold bind at 1. rewrite save_expenses_run.
    cbn [snd print]. destruct (bool_decide _); auto with frame.
  - destruct (load_expenses_isolated s) as (o & s2 & -> & H). exact H.
Qed.

(** X21.  The category operations touch the categories side only: after
    [add_category], [update_category_budget] or [_load_categories], whatever
    the arguments and the outcome, the expenses are the same list, the paths
    and permissions are unchanged, and every file other than the categories
    store has the content it had; [_load_categories] writes no file at
    all. *)
Theorem category_operations_isolated
    (s : state) (name : string) (budget_limit new_budget : pyval) (index : Z) :
  only_categories_store_changed s (add_category name budget_limit s).2
  /\ only_categories_store_changed s (update_category_budget index new_budget s).2
  /\ only_categories_store_changed s (_load_categories s).2
  /\ fs (_load_categories s).2 = fs s.
Proof using Type.
  split; [|split; [|split]].
  - destruct (existsb (same_name name) (categories s)) eqn:E.
    + rewrite add_category_duplicate_run by done. cbn [snd]. auto with frame.
    + rewrite add_category_fresh_run by done.
      destruct (py_float budget_limit) as [limit|e|]; cbn [snd]; auto with frame.
  - unfold update_category_budget, bind at 1, get_state.
    destruct ((0 <=? index)%Z && (index <? Z.of_nat (length (categories s)))%Z);
      [|cbn; auto with frame].
    destruct (categories s !! Z.to_nat index) as [cat|]; [|cbn; auto with frame].
    unfold bind at 1, lift.
    destruct (py_float new_budget) as [limit|e|]; [|cbn; auto with frame|cbn; auto with frame].
    unfold set_categories, bind at 1. unfold bind at 1. rewrite save_categories_run.
    cbn [snd print]. destruct (bool_decide _); auto with frame.
  - unfold _load_categories. run.
    destruct (fs s !! categories_file s) as [[|doc]|]; simpl; auto with frame.
    destruct (iterate doc) as [items|e|]; simpl; auto with frame.
    destruct (load_category_items items) as [cats|e|]; simpl; auto with frame.
  - apply load_categories_frame.
Qed.

(** *** The first start *)

Lemma load_default_categories :
  load_category_items default_categories
  = Ret [mkCategory "Food" 5000%float; mkCategory "Travel" 3000%float;
         mkCategory "Entertainment" 2000%float; mkCategory "Shopping" 4000%float;
         mkCategory "Bills" 6000%float; mkCategory "Healthcare" 1500%float;
         mkCategory "Education" 3000%float; mkCategory "Other" 1000%float].
Proof using Type. vm_compute. reflexivity. Qed.

(** X22.  A first start: when neither store exists and both paths (two
    different ones) can be written, [__init__] returns with an empty ledger
    and the eight default categories, their integer limits converted to
    floats; it has created the expense store as an empty array and the
    categories store with the defaults, touched no other file, and printed
    the two creation messages before the two load messages. *)
Theorem first_start_creates_both_stores
    (df cf : string) (files : gmap string file_content) (ro : gset string) :
  df <> cf -> df ∉ ro -> cf ∉ ro -> files !! df = None -> files !! cf = None ->
  ExpenseManager_init df cf files ro
  = (Ret tt,
     mkState df cf []
       [mkCategory "Food" 5000%float; mkCategory "Travel" 3000%float;
        mkCategory "Entertainment" 2000%float; mkCategory "Shopping" 4000%float;
        mkCategory "Bills" 6000%float; mkCategory "Healthcare" 1500%float;
        mkCategory "Education" 3000%float; mkCategory "Other" 1000%float]
       (<[cf := Parsed (DArray default_categories)]> (<[df := Parsed (DArray [])]> files))
       ro
       [CreatedExpensesFile df; CreatedCategoriesFile cf;
        LoadedExpenses 0 df; LoadedCategories 8 cf]).
Proof using Type.
  intros Hne Hdf Hcf Hnodf Hnocf.
  set (s0 := mkState df cf [] [] files ro []).
  set (s1 := mkState df cf [] []
               (<[cf := Parsed (DArray default_categories)]>
                  (<[df := Parsed (DArray [])]> files))
               ro [CreatedExpensesFile df; CreatedCategoriesFile cf]).
  assert (Hinit : _initialize_files s0 = (Ret tt, s1)).
  { subst s0 s1. unfold _initialize_files, bind at 1, get_state.
    unfold bind at 1, path_exists. cbn [fs data_file categories_file].
    rewrite Hnodf, bool_decide_eq_false_2 by (by intros [? ?]). cbn [negb].
    unfold bind at 1. unfold bind at 1, write_json. cbn [readonly].
    rewrite bool_decide_eq_false_2 by done.
    unfold print at 1. unfold bind at 1, path_exists.
    cbn [printed with_file fs data_file categories_file readonly expenses categories stdout].
    rewrite lookup_insert_ne, Hnocf, bool_decide_eq_false_2 by (done || by intros [? ?]).
    cbn [negb]. unfold bind, write_json, print.
    cbn [printed with_file fs data_file categories_file readonly expenses categories stdout].
    by rewrite bool_decide_eq_false_2. }
  unfold ExpenseManager_init, _load_data. fold s0. unfold bind at 1. rewrite Hinit.
  unfold bind at 1.
  rewrite (load_expenses_saved s1 [])
    by (cbn [s1 fs data_file map]; by rewrite lookup_insert_ne, lookup_insert_eq).
  unfold _load_categories, bind, get_state, try_except, read_json, lift.
  cbn [s1 printed with_expenses fs categories_file].
  rewrite lookup_insert_eq. cbn [iterate]. rewrite load_default_categories.
  reflexivity.
Qed.

End Model.

(** ** Closed instances *)

(** [float] on ints: exact on small values, rounded to nearest even beyond
    2^53, refused beyond the binary64 range. *)
Lemma float_of_int_examples :
  float_of_int 5000 = Ret 5000%float
  /\ float_of_int (2 ^ 53 + 1) = float_of_int (2 ^ 53)
  /\ float_of_int (2 ^ 1024) = Raise OverflowError.
Proof. repeat split; vm_compute; reflexivity. Qed.

(** A first start, with no file present: both stores are created and the
    eight seeded categories are loaded with their limits as floats. *)
Lemma first_start_seeds_defaults :
  exists s,
    ExpenseManager_init "2026-01-01" no_float_text "expenses.json" "categories.json" ∅ ∅
      = (Ret tt, s)
    /\ expenses s = []
    /\ categories s
       = [mkCategory "Food" 5000%float; mkCategory "Travel" 3000%float;
          mkCategory "Entertainment" 2000%float; mkCategory "Shopping" 4000%float;
          mkCategory "Bills" 6000%float; mkCategory "Healthcare" 1500%float;
          mkCategory "Education" 3000%float; mkCategory "Other" 1000%float]
    /\ fs s !! "expenses.json" = Some (Parsed (DArray []))
    /\ fs s !! "categories.json" = Some (Parsed (DArray default_categories))
    /\ stdout s
       = [CreatedExpensesFile "expenses.json"; CreatedCategoriesFile "categories.json";
          LoadedExpenses 0 "expenses.json"; LoadedCategories 8 "categories.json"].
Proof.
  eexists. split; [vm_compute; reflexivity|].
  repeat split; vm_compute; reflexivity.
Qed.

(** C1, as stated, fails: the spec's own scenario keeps "biweekly". *)
Lemma biweekly_frequency_is_kept :
  ("biweekly" ∉ valid_frequencies)
  /\ exists o,
       RecurringExpense_init "2026-01-01" no_float_text
         (VFloat 99%float) (VStr "Bills") (VStr "") VNone (VStr "biweekly") = Ret o
       /\ get_frequency o = Some "biweekly"
       /\ get_frequency o <> Some "monthly".
Proof.
  split.
  - unfold valid_frequencies. intros H.
    repeat (apply elem_of_cons in H as [H|H]; [discriminate|]).
    by apply elem_of_nil in H.
  - eexists. split; [reflexivity|]. split; [reflexivity | discriminate].
Qed.

Lemma frequency_normalised_by_prompt_only_witness :
  ui_frequency ascii_lower ascii_strip "  BiWeekly " = "monthly"
  /\ ui_frequency ascii_lower ascii_strip " Weekly" = "weekly"
  /\ exists b,
       ui_recurring_expense "2026-01-01" ascii_lower ascii_strip no_float_text
         99%float "Bills" "" "" "  BiWeekly "
       = Ret (Recurring b "monthly").
Proof.
  destruct (frequency_normalised_by_prompt_only "2026-01-01" ascii_lower ascii_strip
              no_float_text 99%float "Bills" "" "biweekly" "" "  BiWeekly " None)
    as (_ & [b Hb] & _ & Hother & _).
  destruct (frequency_normalised_by_prompt_only "2026-01-01" ascii_lower ascii_strip
              no_float_text 99%float "Bills" "" "weekly" "" " Weekly" None)
    as (_ & _ & _ & _ & Hknown).
  assert (Hmonthly : ui_frequency ascii_lower ascii_strip "  BiWeekly " = "monthly")
    by (apply Hother, (bool_decide_eq_false_1 _); reflexivity).
  split; [exact Hmonthly|]. split.
  - apply Hknown, (bool_decide_eq_true_1 _). reflexivity.
  - exists b. rewrite <- Hmonthly. exact Hb.
Defined.

(** C2, as stated, fails: the call evaluates to [None], not to the removed
    expense. *)
Lemma delete_expense_returns_none :
  expenses sample_ledger !! 0%nat = Some lunch
  /\ (delete_expense 0 sample_ledger).1 = Ret None
  /\ (delete_expense 0 sample_ledger).1 <> Ret (Some lunch).
Proof.
  split; [reflexivity|].
  assert (H : (delete_expense 0 sample_ledger).1 = Ret None) by (vm_compute; reflexivity).
  split; [exact H|]. rewrite H. discriminate.
Qed.

Lemma delete_expense_valid_index_witness :
  exists deleted,
    expenses sample_ledger !! 1%nat = Some deleted
    /\ (delete_expense 1 sample_ledger).1 = Ret None
    /\ S (length (expenses (delete_expense 1 sample_ledger).2)) = 4%nat.
Proof.
  destruct (delete_expense_valid_index sample_ledger 1) as (deleted & H1 & H2 & _ & H3 & _).
  - simpl. lia.
  - exists deleted. split; [exact H1|]. split; [exact H2 | exact H3].
Defined.

Lemma delete_expense_out_of_range_witness :
  delete_expense 4 sample_ledger = (Ret None, printed sample_ledger InvalidExpenseIndex)
  /\ delete_expense (-1) sample_ledger
     = (Ret None, printed sample_ledger InvalidExpenseIndex).
Proof.
  split; apply delete_expense_out_of_range; simpl; lia.
Defined.

(** C4, as stated, fails for an expense whose date was set to the empty
    string: it is read back with the current date. *)
Lemma empty_date_not_restored :
  get_date (set_date lunch "") = ""
  /\ exists o,
       expense_from_dict "2026-01-01" no_float_text (to_dict (set_date lunch "")) = Ret o
       /\ get_date o = "2026-01-01"
       /\ o <> set_date lunch "".
Proof.
  split; [reflexivity|]. eexists. split; [vm_compute; reflexivity|].
  split; [reflexivity | discriminate].
Qed.

Lemma to_dict_from_dict_roundtrip_witness :
  expense_from_dict "2026-01-01" no_float_text (to_dict rent) = Ret rent
  /\ to_dict rent !! "type" = Some (VStr "recurring")
  /\ Category_from_dict no_float_text (Category_to_dict food) = Ret food.
Proof.
  apply (to_dict_from_dict_roundtrip "2026-01-01" no_float_text rent food).
  discriminate.
Defined.

(** C5, as stated, fails for a collection that already holds the name
    twice: [_load_categories] accepts a store with "Food" and "food" as it
    is, [add_category] then rejects "FOOD" and "Food" without mutating, and
    two categories with that name remain, not one. *)
Lemma duplicate_names_already_stored :
  exists s,
    ExpenseManager_init "2026-01-01" no_float_text "expenses.json" "categories.json"
      {["categories.json" :=
          Parsed (DArray [IDict (Category_to_dict food);
                          IDict (Category_to_dict (mkCategory "food" 10%float))])]} ∅
    = (Ret tt, s)
    /\ categories s = [food; mkCategory "food" 10%float]
    /\ add_category ascii_lower no_float_text "FOOD" (VFloat 1%float) s
       = (Ret tt, printed s (CategoryExists "FOOD"))
    /\ categories
         (add_category ascii_lower no_float_text "Food" (VFloat 1%float)
            (add_category ascii_lower no_float_text "FOOD" (VFloat 1%float) s).2).2
       = [food; mkCategory "food" 10%float]
    /\ length (filter (fun c => ascii_lower (get_name c) = ascii_lower "FOOD")
                 (categories
                    (add_category ascii_lower no_float_text "Food" (VFloat 1%float)
                       (add_category ascii_lower no_float_text "FOOD" (VFloat 1%float)
                          s).2).2)) = 2%nat.
Proof.
  eexists. split; [vm_compute; reflexivity|].
  repeat split; vm_compute; reflexivity.
Qed.

Lemma add_category_rejects_duplicates_witness :
  categories
    (add_category ascii_lower no_float_text "SNACKS" (VFloat 10%float)
       (add_category ascii_lower no_float_text "Snacks" (VFloat 500%float)
          sample_ledger).2).2
  = [food; bills; travel; mkCategory "Snacks" 500%float].
Proof.
  destruct (add_category_rejects_duplicates ascii_lower no_float_text sample_ledger
              "Snacks" "SNACKS" 500%float 10%float VNone)
    as (_ & _ & _ & _ & _ & _ & Hfresh & _).
  - reflexivity.
  - apply Hfresh. intros c Hc.
    repeat (apply elem_of_cons in Hc as [->|Hc]; [discriminate|]).
    by apply elem_of_nil in Hc.
Defined.

(** C6, as stated, fails when the limit and the spent total are both
    +infinity: the total is within the limit, yet the remainder is NaN and
    the block ends with the over-budget line. *)
Lemma infinite_budget_reported_over :
  PrimFloat.ltb 0 (get_budget_limit vault) = true
  /\ PrimFloat.leb (sum_left (map get_amount (cat_expenses [bullion] (get_name vault))))
       (get_budget_limit vault) = true
  /\ category_block sum_left [bullion] vault
     = [LCategoryName "Vault"; LTotalSpent infinity; LBudgetLimit infinity;
        LOverBudget nan]
  /\ LRemaining (PrimFloat.sub infinity infinity) ∉ category_block sum_left [bullion] vault.
Proof.
  assert (Hblock : category_block sum_left [bullion] vault
                   = [LCategoryName "Vault"; LTotalSpent infinity; LBudgetLimit infinity;
                      LOverBudget nan]) by (vm_compute; reflexivity).
  split; [reflexivity|]. split; [vm_compute; reflexivity|]. split; [exact Hblock|].
  rewrite Hblock. intros H.
  repeat (apply elem_of_cons in H as [H|H]; [discriminate|]).
  by apply elem_of_nil in H.
Qed.

Lemma category_block_budget_line_witness :
  category_block sum_left [groceries; taxi] food
  = [LCategoryName "Food"; LTotalSpent 4000%float; LBudgetLimit 5000%float;
     LRemaining 1000%float]
  /\ category_block sum_left [banquet; taxi] food
     = [LCategoryName "Food"; LTotalSpent 6000%float; LBudgetLimit 5000%float;
        LOverBudget 1000%float]
  /\ category_block sum_left [taxi; groceries] travel
     = [LCategoryName "Travel"; LTotalSpent 40%float; LBudgetLimit 0%float].
Proof.
  split; [|split].
  - destruct (category_block_budget_line sum_left [groceries; taxi] food) as (H & _ & _).
    destruct H as [H _]; [reflexivity | reflexivity | intros [H _]; discriminate H |].
    exact H.
  - destruct (category_block_budget_line sum_left [banquet; taxi] food) as (_ & H & _).
    destruct H as [H _]; [reflexivity | reflexivity |].
    exact H.
  - destruct (category_block_budget_line sum_left [taxi; groceries] travel) as (_ & _ & H).
    exact (H eq_refl).
Defined.

Lemma monthly_report_contents_witness :
  MonthlyReport_generate_report sum_left
    (MonthlyReport_init "2026-01" (expenses sample_ledger) (Some "2024-05"))
  = [LMonthlyTitle "2024-05"; LRule; LTotalExpenses 424%float; LBreakdownTitle;
     LBreakdown "Food" 250%float; LBreakdown "Bills" 99%float;
     LBreakdown "Gifts" 75%float].
Proof.
  destruct (monthly_report_contents "2026-01" sum_left (expenses sample_ledger) "2024-05")
    as [H _]; [discriminate|].
  exact H.
Defined.

Lemma get_total_spending_is_sum_witness :
  get_total_spending sum_left sample_ledger = 464%float
  /\ get_total_spending sum_left (with_expenses sample_ledger []) = 0%float.
Proof.
  destruct (get_total_spending_is_sum sum_left eq_refl sample_ledger) as [H _].
  destruct (get_total_spending_is_sum sum_left eq_refl (with_expenses sample_ledger []))
    as [_ H0].
  split; [exact H | exact (H0 eq_refl)].
Defined.


Lemma unmatched_expense_missing_from_category_report_witness :
  CategoryReport_generate_report sum_left
    (mkCategoryReport (get_all_expenses sample_ledger) (get_categories sample_ledger))
  = CategoryReport_generate_report sum_left
      (mkCategoryReport [lunch; rent; taxi] (get_categories sample_ledger))
  /\ ("Gifts", 75%float) ∈ get_category_summary sample_ledger.
Proof.
  destruct (unmatched_expense_missing_from_category_report sum_left sample_ledger
              [lunch; rent; taxi] [] gift) as (_ & Hreport & Hsummary & _).
  - reflexivity.
  - intros c Hc.
    repeat (apply elem_of_cons in Hc as [->|Hc]; [discriminate|]).
    by apply elem_of_nil in Hc.
  - split; [exact Hreport | exact Hsummary].
Defined.

(** ** Instances of the further properties *)

Lemma save_then_load_expenses_witness :
  expenses (_load_expenses "2026-01-01" no_float_text (_save_expenses sample_ledger).2).2
  = [lunch; rent; taxi; gift].
Proof.
  destruct (save_then_load_expenses "2026-01-01" no_float_text sample_ledger)
    as (_ & _ & H & _); [apply not_elem_of_empty|].
  apply H. repeat (constructor; [discriminate|]). constructor.
Defined.

Lemma save_then_load_categories_witness :
  categories (_load_categories no_float_text (_save_categories sample_ledger).2).2
  = [food; bills; travel].
Proof.
  destruct (save_then_load_categories no_float_text sample_ledger) as (_ & H & _);
    [apply not_elem_of_empty|].
  exact H.
Defined.

Lemma restart_reloads_expenses_witness :
  expenses (ExpenseManager_init "2026-01-01" no_float_text "expenses.json" "categories.json"
              (fs (add_expense gift stocked_ledger).2) ∅).2
  = [lunch; rent; taxi; gift; gift].
Proof.
  destruct (restart_reloads_expenses "2026-01-01" no_float_text stocked_ledger gift)
    as [H _].
  - apply not_elem_of_empty.
  - discriminate.
  - eexists. apply lookup_insert_eq.
  - exact H.
Defined.

Lemma refused_record_empties_store_witness :
  expenses (_load_expenses "2026-01-01" no_float_text torn_ledger).2 = []
  /\ fs (_load_expenses "2026-01-01" no_float_text torn_ledger).2
     = <["expenses.json" := Parsed (DArray [])]> (fs torn_ledger)
  /\ stdout (_load_expenses "2026-01-01" no_float_text torn_ledger).2
     = [ErrorLoadingExpenses (KeyError "amount")].
Proof.
  destruct (refused_record_empties_store "2026-01-01" no_float_text torn_ledger
              [lunch] ∅ [IDict (to_dict rent)] (KeyError "amount"))
    as (_ & H1 & H2 & H3).
  - vm_compute. reflexivity.
  - reflexivity.
  - apply not_elem_of_empty.
  - split; [exact H1|]. split; [exact H2 | exact H3].
Defined.

Lemma corrupt_readonly_store_raises_witness :
  (_load_data "2026-01-01" no_float_text locked_ledger).1
  = Raise (PermissionError "expenses.json")
  /\ fs (_load_data "2026-01-01" no_float_text locked_ledger).2 = fs locked_ledger.
Proof.
  destruct (corrupt_readonly_store_raises "2026-01-01" no_float_text locked_ledger)
    as (H1 & _ & _ & H2 & _).
  - vm_compute. reflexivity.
  - vm_compute. reflexivity.
  - split; [exact H1 | exact H2].
Defined.

Lemma update_expense_changes_given_fields_witness :
  exists old e',
    expenses sample_ledger !! 2%nat = Some old
    /\ expenses (update_expense no_float_text 2 (Some (VFloat 45%float)) None (Some "cab") None
                   sample_ledger).2
       = <[2%nat := e']> (expenses sample_ledger)
    /\ get_amount e' = 45%float
    /\ get_category e' = get_category old
    /\ get_description e' = "cab".
Proof.
  destruct (update_expense_changes_given_fields no_float_text sample_ledger 2
              (Some 45%float) None (Some "cab") None)
    as (old & e' & H1 & _ & H2 & H3 & H4 & H5 & _).
  - simpl. lia.
  - exists old, e'. split; [exact H1|]. split; [exact H2|]. split; [exact H3|].
    split; [exact H4 | exact H5].
Defined.

Lemma category_names_stay_distinct_witness :
  distinct_names ascii_lower
    (categories (add_category ascii_lower no_float_text "Snacks" (VFloat 500%float)
                   sample_ledger).2)
  /\ distinct_names ascii_lower
       (categories (update_category_budget no_float_text 0 (VInt 700) sample_ledger).2).
Proof.
  apply (category_names_stay_distinct ascii_lower no_float_text sample_ledger
           "Snacks" (VFloat 500%float) (VInt 700) 0).
  apply (bool_decide_unpack _). vm_compute. exact I.
Defined.

Lemma category_blocks_partition_witness :
  length (concat (map (fun c => cat_expenses [lunch; rent; taxi] (get_name c))
                    [food; bills; travel])) = 3%nat.
Proof.
  destruct (category_blocks_partition [lunch; rent; taxi] [food; bills; travel])
    as [_ H].
  - apply (bool_decide_unpack _). vm_compute. exact I.
  - intros e He.
    repeat (apply elem_of_cons in He as [->|He];
            [apply (bool_decide_unpack _); vm_compute; exact I|]).
    by apply elem_of_nil in He.
  - exact H.
Defined.

Lemma monthly_report_without_matches_witness :
  MonthlyReport_generate_report sum_left
    (MonthlyReport_init "2026-01" (expenses sample_ledger) (Some "2023-01"))
  = [LMonthlyTitle "2023-01"; LRule; LTotalExpenses 0%float; LBreakdownTitle].
Proof.
  destruct (monthly_report_without_matches "2026-01" sum_left eq_refl
              (expenses sample_ledger) "2023-01") as [H _].
  - discriminate.
  - intros e He.
    repeat (apply elem_of_cons in He as [->|He]; [reflexivity|]).
    by apply elem_of_nil in He.
  - exact H.
Defined.

Lemma loaded_ledger_is_stable_witness :
  Forall dated (expenses (_load_expenses "2026-01-01" no_float_text saved_ledger).2)
  /\ expenses
       (_load_expenses "2026-01-01" no_float_text
          (_save_expenses (_load_expenses "2026-01-01" no_float_text saved_ledger).2).2).2
     = expenses (_load_expenses "2026-01-01" no_float_text saved_ledger).2.
Proof.
  apply (loaded_ledger_is_stable "2026-01-01" no_float_text saved_ledger).
  - discriminate.
  - apply not_elem_of_empty.
Defined.

Lemma ui_update_keeps_dates_witness :
  Forall dated
    (expenses (ui_update_expense ascii_strip no_float_text 0 "" "Dining" "" "   "
                 sample_ledger).2).
Proof.
  destruct (ui_update_keeps_dates ascii_strip no_float_text sample_ledger 0
              "" "Dining" "" "   ") as [H _].
  - reflexivity.
  - repeat (constructor; [discriminate|]). constructor.
  - exact H.
Defined.

Lemma first_start_creates_both_stores_witness :
  (ExpenseManager_init "2026-01-01" no_float_text "expenses.json" "categories.json" ∅ ∅).1
  = Ret tt
  /\ length (categories
               (ExpenseManager_init "2026-01-01" no_float_text "expenses.json"
                  "categories.json" ∅ ∅).2) = 8%nat.
Proof.
  rewrite (first_start_creates_both_stores "2026-01-01" no_float_text
             "expenses.json" "categories.json" ∅ ∅).
  - split; reflexivity.
  - discriminate.
  - apply not_elem_of_empty.
  - apply not_elem_of_empty.
  - apply lookup_empty.
  - apply lookup_empty.
Defined.

Lemma update_expense_refused_witness :
  update_expense no_float_text 9 None (Some "Fun") None None sample_ledger
  = (Ret tt, printed sample_ledger InvalidExpenseIndex)
  /\ update_expense no_float_text 1 (Some (VStr "ten")) (Some "Fun") None None sample_ledger
     = (Raise ValueError, sample_ledger).
Proof.
  split.
  - apply (update_expense_refused no_float_text sample_ledger 9 None (Some "Fun") None None).
    right. simpl. lia.
  - apply (update_expense_refused no_float_text sample_ledger 1 (Some (VStr "ten"))
             (Some "Fun") None None) with (v := VStr "ten").
    + simpl. lia.
    + reflexivity.
    + discriminate.
    + reflexivity.
Defined.

Lemma update_category_budget_sets_limit_witness :
  categories (update_category_budget no_float_text 2 (VFloat 800%float) sample_ledger).2
  = [food; bills; mkCategory "Travel" 800%float]
  /\ update_category_budget no_float_text 3 (VFloat 800%float) sample_ledger
     = (Ret tt, printed sample_ledger InvalidCategoryIndex).
Proof.
  destruct (update_category_budget_sets_limit no_float_text sample_ledger 2 800%float)
    as [Hin _].
  destruct (update_category_budget_sets_limit no_float_text sample_ledger 3 800%float)
    as [_ Hout].
  split.
  - destruct Hin as (cat & Hat & _ & Hcats & _); [simpl; lia|].
    injection Hat as <-. exact Hcats.
  - apply Hout. right. simpl. lia.
Defined.
